(** * EASYSHEDULE: the focus timer and the task / lecture endpoints

    A shallow embedding of the two parts of the repository that carry
    behaviour worth stating:

    - the [FocusMode] React component (the countdown, its [useEffect] and the
      four click handlers) together with [App]'s [handleFocusSessionComplete];
    - the [/api/tasks] and [/api/lectures] handlers of [server.ts].

    React's state cells become a record, a render followed by its effects
    becomes explicit state passing in a small error monad, and the SQL
    statements become functions on lists of rows. *)

From Stdlib Require Import ZArith List Bool String Lia.
From Stdlib Require Import Sorting.Sorted Sorting.Permutation.
From Stdlib Require Import Structures.OrdersEx Classes.RelationClasses.
From Stdlib Require Import DecimalString DecimalZ Ascii.
Import ListNotations.
Open Scope string_scope.
Open Scope list_scope.
Open Scope Z_scope.

(* ================================================================== *)
(** ** A small error monad for code that can throw *)

Inductive Failure : Type :=
| CallbackThrew          (* an exception left the effect *)
| UpdateDepthExceeded.   (* the effect kept re-triggering itself *)

Inductive Run (A : Type) : Type :=
| Ok (a : A)
| Err (e : Failure).

Arguments Ok {A} a.
Arguments Err {A} e.

Definition bind {A B : Type} (m : Run A) (k : A -> Run B) : Run B :=
  match m with
  | Ok a => k a
  | Err e => Err e
  end.

Notation "' p <- m ;; k" := (bind m (fun p => k))
  (at level 61, p pattern, m at next level, right associativity).

(* ================================================================== *)
(** ** The FocusMode component (part_000, lines 827-937) *)

Module FocusMode.

(** [useState<'work' | 'break'>]. *)
Inductive SessionType : Type := work | break.

Definition SessionType_eqb (a b : SessionType) : bool :=
  match a, b with
  | work, work | break, break => true
  | _, _ => false
  end.

(** The three [useState] cells of the component. *)
Record State : Type := mkState {
  timeLeft : Z;
  isActive : bool;
  sessionType : SessionType
}.

Definition setTimeLeft (v : Z) (s : State) : State :=
  mkState v (isActive s) (sessionType s).
Definition setIsActive (b : bool) (s : State) : State :=
  mkState (timeLeft s) b (sessionType s).
Definition setSessionType (t : SessionType) (s : State) : State :=
  mkState (timeLeft s) (isActive s) t.

Definition State_eqb (a b : State) : bool :=
  (timeLeft a =? timeLeft b) && Bool.eqb (isActive a) (isActive b)
  && SessionType_eqb (sessionType a) (sessionType b).

(** [const totalTime = sessionType === 'work' ? 25 * 60 : 5 * 60]. *)
Definition totalTime (t : SessionType) : Z :=
  match t with
  | work => 25 * 60
  | break => 5 * 60
  end.

(** What the component does to the outside world. *)
Inductive Event : Type :=
| SessionComplete (duration : Z) (type : SessionType)  (* onSessionComplete(d, t) *)
| Alert (message : string).                            (* alert(message) *)

(** How a call of the [onSessionComplete] prop comes back to the effect. *)
Inductive CallResult : Type := Returns | Throws.

(** A mounted component: its state cells and the interval the last run of
    the effect left behind.  [interval = Some t] is a live [setInterval]
    whose callback closed over [timeLeft = t]; [None] is [null] or a
    cleared interval. *)
Record Fiber : Type := mkFiber {
  hooks : State;
  interval : option Z
}.

(** The callback handed to [setInterval]: [() => setTimeLeft(timeLeft - 1)],
    with [timeLeft] the value captured by the closure. *)
Definition intervalCallback (captured : Z) : State -> State :=
  setTimeLeft (captured - 1).

Section Component.

(** The [onSessionComplete] prop. *)
Variable onSessionComplete : Z -> SessionType -> CallResult.

(** One run of the effect (lines 832-855) on the rendered state [s]: the
    cleanup of the previous run clears the old interval, then the body
    runs.  The setters queue updates; the body keeps reading the values
    of the render it belongs to. *)
Definition useEffect (f : Fiber) : Run (Fiber * list Event) :=
  let s := hooks f in
  if isActive s && (timeLeft s >? 0) then
    Ok (mkFiber s (Some (timeLeft s)), [])
  else if timeLeft s =? 0 then
    let s1 := setIsActive false s in
    let duration := match sessionType s with work => 25 | break => 5 end in
    match onSessionComplete duration (sessionType s) with
    | Throws => Err CallbackThrew
    | Returns =>
        match sessionType s with
        | work =>
            let s2 := setSessionType break s1 in
            let s3 := setTimeLeft (5 * 60) s2 in
            Ok (mkFiber s3 None,
                [SessionComplete duration work;
                 Alert "Session complete! Take a break."])
        | break =>
            let s2 := setSessionType work s1 in
            let s3 := setTimeLeft (25 * 60) s2 in
            Ok (mkFiber s3 None,
                [SessionComplete duration break;
                 Alert "Break over! Time to focus."])
        end
    end
  else Ok (mkFiber s None, []).

(** Render, run the effect, and render again for as long as the effect
    changed a dependency.  React gives up after a bounded number of
    nested updates. *)
Fixpoint flushEffects (depth : nat) (f : Fiber) : Run (Fiber * list Event) :=
  match depth with
  | O => Err UpdateDepthExceeded
  | S d =>
      '(f1, evs1) <- useEffect f ;;
      if State_eqb (hooks f1) (hooks f) then Ok (f1, evs1)
      else '(f2, evs2) <- flushEffects d f1 ;; Ok (f2, evs1 ++ evs2)
  end.

Definition updateDepth : nat := 50.

(** A handler queues its updates; an unchanged state re-renders nothing. *)
Definition dispatch (update : State -> State) (f : Fiber)
  : Run (Fiber * list Event) :=
  let s' := update (hooks f) in
  if State_eqb s' (hooks f) then Ok (f, [])
  else flushEffects updateDepth (mkFiber s' (interval f)).

(** [useState(25 * 60)], [useState(false)], [useState('work')], then the
    effect of the first render. *)
Definition initialState : State := mkState (25 * 60) false work.

Definition mount : Run (Fiber * list Event) :=
  flushEffects updateDepth (mkFiber initialState None).

(** "Work Session" and "Short Break" (lines 872-883). *)
Definition onClickWorkSession (s : State) : State :=
  setIsActive false (setTimeLeft (25 * 60) (setSessionType work s)).
Definition onClickShortBreak (s : State) : State :=
  setIsActive false (setTimeLeft (5 * 60) (setSessionType break s)).

(** The round start / pause button (line 920): [setIsActive(!isActive)]. *)
Definition onClickToggle (s : State) : State :=
  setIsActive (negb (isActive s)) s.

(** The reset button (line 929). *)
Definition onClickReset (s : State) : State :=
  setIsActive false
    (setTimeLeft (match sessionType s with work => 25 * 60 | break => 5 * 60 end) s).

(** Everything that can happen to a mounted component.  In the words of the
    timer's state machine: [ClickMode m] is selectMode(m), [ClickToggle] is
    start() on a stopped timer and pause() on a running one, [ClickReset] is
    reset() and [Tick] is tick().  A cleared interval is never delivered, so
    a [Tick] without a live interval does nothing. *)
Inductive Action : Type :=
| ClickMode (m : SessionType)  (* one of the two mode buttons *)
| ClickToggle
| ClickReset
| Tick                         (* the browser delivers the interval *)
| Rerender.                    (* the parent passes a new callback *)

Definition step (a : Action) (f : Fiber) : Run (Fiber * list Event) :=
  match a with
  | ClickMode work => dispatch onClickWorkSession f
  | ClickMode break => dispatch onClickShortBreak f
  | ClickToggle => dispatch onClickToggle f
  | ClickReset => dispatch onClickReset f
  | Tick =>
      match interval f with
      | Some captured => dispatch (intervalCallback captured) f
      | None => Ok (f, [])
      end
  | Rerender => flushEffects updateDepth f
  end.

End Component.

End FocusMode.

(* ================================================================== *)
(** ** App: the session recorder wired to the timer (part_000, lines 208-229) *)

Module App.
Import FocusMode.

(** The promise [fetch('/api/focus', ...)] hands back, once settled. *)
Inductive Promise : Type := Fulfilled | Rejected.

(** How a block of statements ends. *)
Inductive Completion : Type := Normal | Abrupt.

(** What one call of the recorder leaves behind besides its promise. *)
Record Trace : Type := mkTrace {
  posted : list (Z * SessionType);   (* bodies sent to POST /api/focus *)
  console : list string              (* lines written by console.error *)
}.

(** [await p]: go on normally, or throw at the [await]. *)
Definition await (p : Promise) : Completion :=
  match p with
  | Fulfilled => Normal
  | Rejected => Abrupt
  end.

(** [try { body } catch (error) { handler }]: the handler runs only when
    the body threw, and its own completion is the statement's. *)
Definition try_catch (body : Completion) (handler : Completion * list string)
  : Completion * list string :=
  match body with
  | Normal => (Normal, [])
  | Abrupt => handler
  end.

Definition console_error (line : string) : Completion * list string :=
  (Normal, [line]).

(** An [async] function settles its promise by how its body ended. *)
Definition async (body : Completion) : Promise :=
  match body with
  | Normal => Fulfilled
  | Abrupt => Rejected
  end.

(** [handleFocusSessionComplete] (lines 208-218); [net] is how the request
    to the backend turns out. *)
Definition handleFocusSessionComplete (net : Promise) (duration : Z)
    (type : SessionType) : Promise * Trace :=
  let '(c, lines) :=
    try_catch (await net) (console_error "Focus session save error:") in
  (async c, mkTrace [(duration, type)] lines).

(** The caller of an [async] function gets the promise at once: whatever
    happens to the body happens to the promise, not to the caller. *)
Definition call (pending : Promise * Trace) : CallResult := Returns.

(** [<FocusMode onSessionComplete={handleFocusSessionComplete} />]. *)
Definition onSessionComplete (net : Promise) : Z -> SessionType -> CallResult :=
  fun duration type => call (handleFocusSessionComplete net duration type).

Definition mount (net : Promise) : Run (Fiber * list Event) :=
  FocusMode.mount (onSessionComplete net).

Definition step (net : Promise) (a : Action) (f : Fiber)
  : Run (Fiber * list Event) :=
  FocusMode.step (onSessionComplete net) a f.

(** A run of the mounted timer: each action comes with the fate of the
    request a completion during that action would send. *)
Fixpoint run (acts : list (Promise * Action)) (f : Fiber)
  : Run (Fiber * list Event) :=
  match acts with
  | [] => Ok (f, [])
  | (net, a) :: rest =>
      '(f1, evs1) <- step net a f ;;
      '(f2, evs2) <- run rest f1 ;;
      Ok (f2, evs1 ++ evs2)
  end.

(** [n] deliveries of the interval, the [i]-th under network fate [net i]. *)
Definition ticksFrom (net : nat -> Promise) (start n : nat)
  : list (Promise * Action) :=
  map (fun i => (net i, Tick)) (seq start n).

Definition ticks (net : nat -> Promise) (n : nat) (f : Fiber)
  : Run (Fiber * list Event) :=
  run (ticksFrom net 0 n) f.

(** The states the mounted timer can be in between two actions. *)
Inductive reachable : Fiber -> Prop :=
| reachable_mount net f evs :
    mount net = Ok (f, evs) -> reachable f
| reachable_step net a f f' evs :
    reachable f -> step net a f = Ok (f', evs) -> reachable f'.

(** The number of [onSessionComplete] calls in a trace. *)
Fixpoint completions (evs : list Event) : nat :=
  match evs with
  | [] => O
  | SessionComplete _ _ :: rest => S (completions rest)
  | Alert _ :: rest => completions rest
  end.

(** The action takes [timeLeft] from 1 to 0 while the timer is running. *)
Definition expires (a : Action) (f : Fiber) : bool :=
  match a with
  | Tick => isActive (hooks f) && (timeLeft (hooks f) =? 1)
  | _ => false
  end.

(** The number of such expiries along a run. *)
Fixpoint expiries (acts : list (Promise * Action)) (f : Fiber) : nat :=
  match acts with
  | [] => O
  | (net, a) :: rest =>
      match step net a f with
      | Ok (f1, _) => ((if expires a f then 1 else 0) + expiries rest f1)%nat
      | Err _ => O
      end
  end.

(** The named states of the specification's state machine. *)
Definition idle (m : SessionType) (t : Z) : Fiber :=
  mkFiber (mkState t false m) None.
Definition running (m : SessionType) (t : Z) : Fiber :=
  mkFiber (mkState t true m) (Some t).

(** The mode the timer advances to, the minutes it reports and the text it
    shows when a session of mode [m] completes. *)
Definition other (m : SessionType) : SessionType :=
  match m with
  | work => break
  | break => work
  end.

Definition minutes (m : SessionType) : Z :=
  match m with
  | work => 25
  | break => 5
  end.

Definition notice (m : SessionType) : string :=
  match m with
  | work => "Session complete! Take a break."
  | break => "Break over! Time to focus."
  end.

(** The interval a render of state [s] leaves armed. *)
Definition armed (s : State) : option Z :=
  if isActive s && (timeLeft s >? 0) then Some (timeLeft s) else None.

(** What the render loop settles to from a fiber: the closed form of
    [flushEffects], proved equal to it below. *)
Definition settle (f : Fiber) : Fiber * list Event :=
  let s := hooks f in
  if timeLeft s =? 0
  then (idle (other (sessionType s)) (totalTime (other (sessionType s))),
        [SessionComplete (minutes (sessionType s)) (sessionType s);
         Alert (notice (sessionType s))])
  else (mkFiber s (armed s), []).

(** A trace made of completions only, each reporting the minutes of its own
    mode and followed by that mode's notice. *)
Fixpoint nominal (evs : list Event) : bool :=
  match evs with
  | [] => true
  | SessionComplete d t :: Alert msg :: rest =>
      (d =? minutes t) && String.eqb msg (notice t) && nominal rest
  | _ => false
  end.

(** The invariant of the states at rest. *)
Definition at_rest (f : Fiber) : Prop :=
  0 < timeLeft (hooks f) <= totalTime (sessionType (hooks f))
  /\ interval f = armed (hooks f).

End App.

(* ================================================================== *)
(** ** server.ts: the tasks and lectures endpoints *)

Module Server.

(** A TEXT column: [None] is NULL. *)
Definition Text : Type := option string.

Module Tasks.
(** A row of [tasks] (lines 14-22). *)
Record Row : Type := mkRow {
  id : Z;
  title : string;
  description : Text;
  priority : Text;
  status : Text;
  due_date : Text;
  created_at : Text
}.
End Tasks.

Module Lectures.
(** A row of [lectures] (lines 24-31). *)
Record Row : Type := mkRow {
  id : Z;
  subject : string;
  topic : Text;
  attendance_status : Text;
  date : Text;
  completed : Z
}.
End Lectures.

Record Db : Type := mkDb {
  tasks : list Tasks.Row;
  lectures : list Lectures.Row
}.

(** A field read off [req.body] by destructuring, as this application's
    client sends it: the columns are TEXT and the client sends strings, so a
    field is absent, [null] or a string.  Bodies that hold anything else are
    the matter of the handlers of [AnyBody] below. *)
Inductive JsValue : Type :=
| JsUndefined
| JsNull
| JsString (s : string).

(** [if (v)]. *)
Definition truthy (v : JsValue) : bool :=
  match v with
  | JsUndefined | JsNull => false
  | JsString s => negb (String.eqb s "")
  end.

(** The value the driver binds to a [?]: [undefined] and [null] both bind
    as NULL. *)
Definition bindValue (v : JsValue) : Text :=
  match v with
  | JsUndefined | JsNull => None
  | JsString s => Some s
  end.

(** The fields the two PATCH handlers read from the body. *)
Record TaskPatch : Type := mkTaskPatch {
  body_status : JsValue;
  body_priority : JsValue
}.

Record LecturePatch : Type := mkLecturePatch {
  body_attendance_status : JsValue
}.

(** [UPDATE tasks SET status = ? WHERE id = ?]. *)
Definition update_task_status (v : Text) (i : Z) (rows : list Tasks.Row)
  : list Tasks.Row :=
  map (fun r =>
         if Tasks.id r =? i
         then Tasks.mkRow (Tasks.id r) (Tasks.title r) (Tasks.description r)
                (Tasks.priority r) v (Tasks.due_date r) (Tasks.created_at r)
         else r) rows.

(** [UPDATE tasks SET priority = ? WHERE id = ?]. *)
Definition update_task_priority (v : Text) (i : Z) (rows : list Tasks.Row)
  : list Tasks.Row :=
  map (fun r =>
         if Tasks.id r =? i
         then Tasks.mkRow (Tasks.id r) (Tasks.title r) (Tasks.description r)
                v (Tasks.status r) (Tasks.due_date r) (Tasks.created_at r)
         else r) rows.

(** [UPDATE lectures SET attendance_status = ? WHERE id = ?]. *)
Definition update_lecture_attendance (v : Text) (i : Z)
    (rows : list Lectures.Row) : list Lectures.Row :=
  map (fun r =>
         if Lectures.id r =? i
         then Lectures.mkRow (Lectures.id r) (Lectures.subject r)
                (Lectures.topic r) v (Lectures.date r) (Lectures.completed r)
         else r) rows.

(** [res.json({ success: true })]. *)
Record Success : Type := mkSuccess { success : bool }.

(** [app.patch("/api/tasks/:id")] (lines 97-102). *)
Definition patch_task (params_id : Z) (body : TaskPatch) (db : Db)
  : Db * Success :=
  let rows1 :=
    if truthy (body_status body)
    then update_task_status (bindValue (body_status body)) params_id (tasks db)
    else tasks db in
  let rows2 :=
    if truthy (body_priority body)
    then update_task_priority (bindValue (body_priority body)) params_id rows1
    else rows1 in
  (mkDb rows2 (lectures db), mkSuccess true).

(** [app.patch("/api/lectures/:id")] (lines 116-120). *)
Definition patch_lecture (params_id : Z) (body : LecturePatch) (db : Db)
  : Db * Success :=
  (mkDb (tasks db)
     (update_lecture_attendance (bindValue (body_attendance_status body))
        params_id (lectures db)),
   mkSuccess true).

(** The order SQLite gives TEXT values: NULL below every string, strings
    byte by byte. *)
Definition text_leb (a b : Text) : bool :=
  match a, b with
  | None, _ => true
  | Some _, None => false
  | Some x, Some y =>
      match OrdersEx.String_as_OT.compare x y with
      | Gt => false
      | _ => true
      end
  end.

(** [ORDER BY created_at DESC], by insertion into the rows already placed. *)
Fixpoint place_desc (r : Tasks.Row) (sorted : list Tasks.Row)
  : list Tasks.Row :=
  match sorted with
  | [] => [r]
  | x :: rest =>
      if text_leb (Tasks.created_at x) (Tasks.created_at r)
      then r :: x :: rest
      else x :: place_desc r rest
  end.

Definition order_by_created_at_desc (rows : list Tasks.Row)
  : list Tasks.Row :=
  fold_right place_desc [] rows.

(** [app.get("/api/tasks")] (lines 84-87). *)
Definition get_tasks (db : Db) : list Tasks.Row :=
  order_by_created_at_desc (tasks db).

(** [a] may stand before [b] in a listing by [created_at], newest first. *)
Definition newer_or_same (a b : Tasks.Row) : Prop :=
  text_leb (Tasks.created_at b) (Tasks.created_at a) = true.

(** A lecture as the client leaves it after marking attendance. *)
Definition attended_lecture : Lectures.Row :=
  Lectures.mkRow 1 "Algorithms" (Some "Sorting") (Some "Present")
    (Some "2025-01-10") 0.

(** *** The rest of the endpoints *)

Definition Text_eqb (a b : Text) : bool :=
  match a, b with
  | None, None => true
  | Some x, Some y => String.eqb x y
  | _, _ => false
  end.

(** What a handler sends back: [res.json(a)], or the 500 Express answers
    with when the handler throws. *)
Inductive Reply (A : Type) : Type :=
| Sent (a : A)
| ServerError.

Arguments Sent {A} a.
Arguments ServerError {A}.

(** The fields [app.post("/api/tasks")] reads from the body. *)
Record TaskPost : Type := mkTaskPost {
  post_title : JsValue;
  post_description : JsValue;
  post_priority : JsValue;
  post_status : JsValue;
  post_due_date : JsValue
}.

(** [INTEGER PRIMARY KEY AUTOINCREMENT]: one more than the largest id ever
    used.  No statement of the server deletes or renumbers a row, so that is
    the largest id in the table. *)
Definition next_id (ids : list Z) : Z :=
  1 + fold_right Z.max 0 ids.

(** The largest rowid, 2^63 - 1: once it is in use an AUTOINCREMENT table
    takes no further row and the INSERT throws. *)
Definition max_rowid : Z := 9223372036854775807.

(** [Number.MAX_SAFE_INTEGER], 2^53 - 1. *)
Definition max_safe_integer : Z := 9007199254740991.

(** An id that travels unchanged as a JavaScript number. *)
Definition safe_id (i : Z) : Prop := Z.abs i < max_safe_integer.

(** A 64-bit integer as the JavaScript number the driver hands out for it:
    the nearest double, ties to even.  Below 2^53 that is the integer
    itself. *)
Definition asNumber (i : Z) : Z :=
  if Z.abs i <? 2 ^ 53 then i
  else
    let e := Z.log2 (Z.abs i) - 52 in
    let u := 2 ^ e in
    let q := Z.abs i / u in
    let r := Z.abs i mod u in
    let q' :=
      if 2 * r <? u then q
      else if u <? 2 * r then q + 1
      else if Z.even q then q else q + 1 in
    Z.sgn i * (q' * u).

(** [app.post("/api/tasks")] (lines 89-95), for a body whose fields are
    absent, null or strings.  All five columns are bound, so an absent field
    is stored as NULL and the column defaults do not apply; [title] is NOT
    NULL, and a NULL bound to it makes the statement throw, as does a table
    whose ids are used up.  [created_at] takes CURRENT_TIMESTAMP, here
    [now]; the answer carries [lastInsertRowid] as a number. *)
Definition post_task (now : string) (body : TaskPost) (db : Db)
  : Db * Reply Z :=
  match bindValue (post_title body) with
  | None => (db, ServerError)
  | Some t =>
      let i := next_id (map Tasks.id (tasks db)) in
      if i <=? max_rowid
      then
        (mkDb (tasks db ++
                 [Tasks.mkRow i t (bindValue (post_description body))
                    (bindValue (post_priority body)) (bindValue (post_status body))
                    (bindValue (post_due_date body)) (Some now)])
              (lectures db),
         Sent (asNumber i))
      else (db, ServerError)
  end.

(** A task as the form creates it. *)
Definition sample_task : Tasks.Row :=
  Tasks.mkRow 1 "Read chapter 3" (Some "") (Some "medium") (Some "todo")
    (Some "2025-01-20") (Some "2025-01-10 09:00:00").

(** The row [post_task] stores for a body with title [t], under id [i]. *)
Definition posted_task (i : Z) (t now : string) (body : TaskPost) : Tasks.Row :=
  Tasks.mkRow i t (bindValue (post_description body))
    (bindValue (post_priority body)) (bindValue (post_status body))
    (bindValue (post_due_date body)) (Some now).

(** The fields [app.post("/api/lectures")] reads from the body. *)
Record LecturePost : Type := mkLecturePost {
  post_subject : JsValue;
  post_topic : JsValue;
  post_date : JsValue
}.

(** [app.post("/api/lectures")] (lines 110-114), for a body whose fields
    are absent, null or strings: [attendance_status] is left to its default
    NULL and [completed] to its default 0. *)
Definition post_lecture (body : LecturePost) (db : Db) : Db * Reply Success :=
  match bindValue (post_subject body) with
  | None => (db, ServerError)
  | Some sub =>
      let i := next_id (map Lectures.id (lectures db)) in
      if i <=? max_rowid
      then
        (mkDb (tasks db)
              (lectures db ++
                 [Lectures.mkRow i sub (bindValue (post_topic body)) None
                    (bindValue (post_date body)) 0]),
         Sent (mkSuccess true))
      else (db, ServerError)
  end.

(** [ORDER BY date DESC] on lectures. *)
Fixpoint place_lecture_desc (r : Lectures.Row) (sorted : list Lectures.Row)
  : list Lectures.Row :=
  match sorted with
  | [] => [r]
  | x :: rest =>
      if text_leb (Lectures.date x) (Lectures.date r)
      then r :: x :: rest
      else x :: place_lecture_desc r rest
  end.

(** [app.get("/api/lectures")] (lines 105-108). *)
Definition get_lectures (db : Db) : list Lectures.Row :=
  fold_right place_lecture_desc [] (lectures db).

Definition later_or_same_date (a b : Lectures.Row) : Prop :=
  text_leb (Lectures.date b) (Lectures.date a) = true.

(** [SELECT status, COUNT( * ) as count FROM tasks GROUP BY status]: one
    group per distinct status, NULL being a status of its own.  The order of
    the groups is not fixed by the statement; here it is that of first
    appearance. *)
Fixpoint count_into (s : Text) (groups : list (Text * Z)) : list (Text * Z) :=
  match groups with
  | [] => [(s, 1)]
  | (k, c) :: rest =>
      if Text_eqb k s then (k, c + 1) :: rest
      else (k, c) :: count_into s rest
  end.

Definition group_by_status (rows : list Tasks.Row) : list (Text * Z) :=
  fold_left (fun groups r => count_into (Tasks.status r) groups) rows [].

(** The [taskStats] of [app.get("/api/analytics")] (line 130). *)
Definition taskStats (db : Db) : list (Text * Z) :=
  group_by_status (tasks db).

(** The count listed for a status, 0 when it is not listed. *)
Definition count_of (s : Text) (groups : list (Text * Z)) : Z :=
  match find (fun kc => Text_eqb (fst kc) s) groups with
  | Some (_, c) => c
  | None => 0
  end.

(** The number of rows of a given status. *)
Definition with_status (s : Text) (rows : list Tasks.Row) : Z :=
  Z.of_nat (List.length (filter (fun r => Text_eqb (Tasks.status r) s) rows)).



(** *** The handlers on bodies of any kind *)

(** The edit [update_task_status] makes to one row, and the one
    [update_task_priority] makes. *)
Definition set_status (v : Text) (i : Z) (r : Tasks.Row) : Tasks.Row :=
  if Tasks.id r =? i
  then Tasks.mkRow (Tasks.id r) (Tasks.title r) (Tasks.description r)
         (Tasks.priority r) v (Tasks.due_date r) (Tasks.created_at r)
  else r.

Definition set_priority (v : Text) (i : Z) (r : Tasks.Row) : Tasks.Row :=
  if Tasks.id r =? i
  then Tasks.mkRow (Tasks.id r) (Tasks.title r) (Tasks.description r)
         v (Tasks.status r) (Tasks.due_date r) (Tasks.created_at r)
  else r.

(** The columns of a task that no PATCH names. *)
Definition untouched (r : Tasks.Row) : Z * string * Text * Text * Text :=
  (Tasks.id r, Tasks.title r, Tasks.description r, Tasks.due_date r,
   Tasks.created_at r).

Section AnyBody.

(** A field of [req.body] is whatever [express.json()] parsed, or
    undefined.  A handler does two things with it: it tests it, and it hands
    it to the driver. *)
Variable Value : Type.

(** [if (v)]. *)
Variable isTruthy : Value -> bool.

(** What [.run(v, id)] binds to the first [?] of an UPDATE: the content the
    TEXT column then holds, or [None] when the driver throws. *)
Variable bound : Value -> option Text.

(** What [.run(v1, ..., v5)] binds to the five [?] of the INSERT, or [None]
    when the driver throws. *)
Variable boundAll : list Value -> option (list Text).

(** [app.patch("/api/tasks/:id")] (lines 97-102).  Each statement commits on
    its own: when the second throws, the first has been applied. *)
Definition patch_task_any (params_id : Z) (status priority : Value) (db : Db)
  : Db * Reply Success :=
  match (if isTruthy status
         then option_map (fun v => update_task_status v params_id (tasks db))
                (bound status)
         else Some (tasks db)) with
  | None => (db, ServerError)
  | Some rows1 =>
      match (if isTruthy priority
             then option_map (fun v => update_task_priority v params_id rows1)
                    (bound priority)
             else Some rows1) with
      | None => (mkDb rows1 (lectures db), ServerError)
      | Some rows2 => (mkDb rows2 (lectures db), Sent (mkSuccess true))
      end
  end.

(** [app.patch("/api/lectures/:id")] (lines 116-120). *)
Definition patch_lecture_any (params_id : Z) (attendance_status : Value)
    (db : Db) : Db * Reply Success :=
  match bound attendance_status with
  | None => (db, ServerError)
  | Some v =>
      (mkDb (tasks db) (update_lecture_attendance v params_id (lectures db)),
       Sent (mkSuccess true))
  end.

(** [app.post("/api/tasks")] (lines 89-95). *)
Definition post_task_any (now : string)
    (title description priority status due_date : Value) (db : Db)
  : Db * Reply Z :=
  match boundAll [title; description; priority; status; due_date] with
  | Some [Some t; d; p; s; u] =>
      let i := next_id (map Tasks.id (tasks db)) in
      if i <=? max_rowid
      then (mkDb (tasks db ++ [Tasks.mkRow i t d p s u (Some now)]) (lectures db),
            Sent (asNumber i))
      else (db, ServerError)
  | _ => (db, ServerError)
  end.

End AnyBody.

End Server.

(* ================================================================== *)
(** ** The countdown as FocusMode displays it (part_000, lines 857-861) *)

Module FocusView.

(** [n.toString()] of an integer below 10^21, where every digit is
    printed. *)
Definition toString (n : Z) : string :=
  NilZero.string_of_int (Z.to_int n).

(** [s.padStart(2, '0')]. *)
Definition padStart2 (s : string) : string :=
  match String.length s with
  | O => "00"
  | 1%nat => "0" ++ s
  | _ => s
  end.

(** [formatTime]: [Math.floor(seconds / 60)] minutes and [seconds % 60]
    seconds, each padded to two places; for a whole number of seconds
    within the safe integers, where the arithmetic on numbers is that on
    integers. *)
Definition formatTime (seconds : Z) : string :=
  let mins := seconds / 60 in
  let secs := Z.rem seconds 60 in
  padStart2 (toString mins) ++ ":" ++ padStart2 (toString secs).

(** Reading a display back, for stating that nothing is lost: the number of
    seconds a text of the shape minutes, colon, seconds stands for. *)
Fixpoint splitAtColon (s : string) : option (string * string) :=
  match s with
  | EmptyString => None
  | String c rest =>
      if Ascii.eqb c ":"%char then Some (EmptyString, rest)
      else match splitAtColon rest with
           | Some (a, b) => Some (String c a, b)
           | None => None
           end
  end.

Definition readTime (display : string) : option Z :=
  match splitAtColon display with
  | Some (m, r) =>
      match NilZero.int_of_string m, NilZero.int_of_string r with
      | Some dm, Some dr => Some (60 * Z.of_int dm + Z.of_int dr)
      | _, _ => None
      end
  | None => None
  end.

(** The decimal digits of a number that is not negative. *)
Definition digits (n : Z) : Decimal.uint :=
  match n with
  | Zpos p => Pos.to_uint p
  | _ => Decimal.zero
  end.

End FocusView.

(* ================================================================== *)
(** ** The client's copies of the tables (part_000, lines 44-60, 144-206,
       356-372, 443-463, 939-958) *)

Module Client.
Import Server.

(** [interface Task]: what the views read of a task.  A fetched row also
    carries [created_at], which no view reads. *)
Record Task : Type := mkTask {
  id : Z;
  title : string;
  description : Text;
  priority : Text;
  status : Text;
  due_date : Text
}.

Definition fromRow (r : Tasks.Row) : Task :=
  mkTask (Tasks.id r) (Tasks.title r) (Tasks.description r) (Tasks.priority r)
    (Tasks.status r) (Tasks.due_date r).

(** [fetchData] (lines 145-160): the lists as the two GET endpoints give
    them. *)
Definition fetchTasks (db : Db) : list Task := map fromRow (get_tasks db).
Definition fetchLectures (db : Db) : list Lectures.Row := get_lectures db.






(** [updateTaskStatus] of [TaskManager] (lines 452-463): the local copy
    after the request, and the lines logged. *)
Definition updateTaskStatus (net : App.Promise) (i : Z) (st : string)
    (tasks : list Task) : list Task * list string :=
  match App.await net with
  | App.Normal =>
      (map (fun t =>
              if id t =? i
              then mkTask (id t) (title t) (description t) (priority t)
                     (Some st) (due_date t)
              else t) tasks, [])
  | App.Abrupt => (tasks, ["Update error:"])
  end.

(** [JSON.stringify({ status })]. *)
Definition updateTaskStatusBody (st : string) : TaskPatch :=
  mkTaskPatch (JsString st) JsUndefined.

(** [handleMarkAttendance] (lines 195-206). *)
Definition handleMarkAttendance (net : App.Promise) (i : Z) (st : string)
    (lectures : list Lectures.Row) : list Lectures.Row * list string :=
  match App.await net with
  | App.Normal =>
      (map (fun l =>
              if Lectures.id l =? i
              then Lectures.mkRow (Lectures.id l) (Lectures.subject l)
                     (Lectures.topic l) (Some st) (Lectures.date l)
                     (Lectures.completed l)
              else l) lectures, [])
  | App.Abrupt => (lectures, ["Attendance error:"])
  end.

(** [JSON.stringify({ attendance_status: status })]. *)
Definition markAttendanceBody (st : string) : LecturePatch :=
  mkLecturePatch (JsString st).

(** The list a component ends with when several marks were requested from
    one render and all got through: each continuation writes its edit of
    the list that render had captured ([lectures.map], line 202), so the
    one that resumes last decides. *)
Definition marksFromOneRender (captured : list Lectures.Row)
    (marks : list (Z * string)) (current : list Lectures.Row)
  : list Lectures.Row :=
  fold_left
    (fun _ m => fst (handleMarkAttendance App.Fulfilled (fst m) (snd m) captured))
    marks current.

(** The database after the server has handled those marks. *)
Definition serverAfterMarks (marks : list (Z * string)) (db : Db) : Db :=
  fold_left
    (fun d m => fst (patch_lecture (fst m) (markAttendanceBody (snd m)) d))
    marks db.

(** The same for changes of status requested from one render of
    [TaskManager] ([tasks.map], line 459). *)
Definition statusesFromOneRender (captured : list Task)
    (changes : list (Z * string)) (current : list Task) : list Task :=
  fold_left
    (fun _ c => fst (updateTaskStatus App.Fulfilled (fst c) (snd c) captured))
    changes current.

Definition serverAfterStatuses (changes : list (Z * string)) (db : Db) : Db :=
  fold_left
    (fun d c => fst (patch_task (fst c) (updateTaskStatusBody (snd c)) d))
    changes db.

(** [onAdd({ subject, topic, date })] of [LectureModal] (line 746), as the
    server's handler destructures it. *)
Definition addLectureBody (subject topic date : string) : LecturePost :=
  mkLecturePost (JsString subject) (JsString topic) (JsString date).

(** [handleAddLecture] (lines 179-193): POST, then GET the list again and
    show it.  [sent] and [fetched] say whether the two requests get through;
    the answer to the POST is not looked at. *)
Definition handleAddLecture (sent fetched : App.Promise) (body : LecturePost)
    (db : Db) (lectures : list Lectures.Row) (isLectureModalOpen : bool)
  : Db * (list Lectures.Row * bool) * list string :=
  match App.await sent with
  | App.Normal =>
      let db' := fst (post_lecture body db) in
      match App.await fetched with
      | App.Normal => (db', (get_lectures db', false), [])
      | App.Abrupt => (db', (lectures, isLectureModalOpen), ["Add lecture error:"])
      end
  | App.Abrupt => (db, (lectures, isLectureModalOpen), ["Add lecture error:"])
  end.

(** The counters of [Dashboard] (lines 367-371). *)
Definition isDone (t : Task) : bool := Text_eqb (status t) (Some "done").

Definition pendingTasks (tasks : list Task) : nat :=
  List.length (filter (fun t => negb (isDone t)) tasks).
Definition completedTasks (tasks : list Task) : nat :=
  List.length (filter isDone tasks).
Definition presentLectures (lectures : list Lectures.Row) : nat :=
  List.length
    (filter (fun l => Text_eqb (Lectures.attendance_status l) (Some "present"))
       lectures).

(** The kanban board of [TaskManager] (lines 446-450, 527): the ids of the
    three columns and the cards of one column. *)
Definition columns : list string := ["todo"; "in-progress"; "done"].

Definition columnTasks (col : string) (tasks : list Task) : list Task :=
  filter (fun t => Text_eqb (status t) (Some col)) tasks.

(** [lectures.slice(0, 3)] of the dashboard's "Upcoming Lectures"
    (line 420). *)
Definition upcomingLectures (lectures : list Lectures.Row)
  : list Lectures.Row :=
  firstn 3 lectures.

(** A card that no column of the board shows. *)
Definition offBoard (t : Task) : bool :=
  negb (existsb (fun col => Text_eqb (status t) (Some col)) columns).




End Client.

(* ================================================================== *)
(** ** The assistant: [/api/ai/chat] (server.ts, lines 64-81) and
       [AIAssistant] (part_000, lines 1049-1077) *)

Module Chat.
Import Server.




Inductive Role : Type := user | ai.

Record Message : Type := mkMessage {
  role : Role;
  text : JsValue
}.

(** The three [useState] cells of [AIAssistant]. *)
Record State : Type := mkState {
  messages : list Message;
  input : string;
  isTyping : bool
}.

Definition greeting : Message :=
  mkMessage ai (JsString
    "Hello Darshan! I'm your Productivity OS Assistant. How can I help you optimize your schedule today?").

Definition initialState : State := mkState [greeting] "" false.


Section Assistant.

(** [String.prototype.trim]. *)
Variable trim : string -> string.




End Assistant.

End Chat.

(* ================================================================== *)
(** * Properties of the timer *)

Import FocusMode App.

Lemma SessionType_eqb_eq (a b : SessionType) :
  SessionType_eqb a b = true <-> a = b.
Proof. destruct a, b; simpl; split; congruence. Qed.

Lemma State_eqb_eq (a b : State) : State_eqb a b = true <-> a = b.
Proof.
  destruct a as [t1 b1 m1], b as [t2 b2 m2]; unfold State_eqb; simpl.
  rewrite !andb_true_iff, Z.eqb_eq, Bool.eqb_true_iff, SessionType_eqb_eq.
  split.
  - intros [[-> ->] ->]; reflexivity.
  - intros E; inversion E; auto.
Qed.

Lemma State_eqb_refl (a : State) : State_eqb a a = true.
Proof. apply State_eqb_eq; reflexivity. Qed.

Lemma State_eqb_neq (a b : State) : a <> b -> State_eqb a b = false.
Proof.
  intros N; destruct (State_eqb a b) eqn:E; auto.
  apply State_eqb_eq in E; contradiction.
Qed.

(** The recorder never throws into its caller, whatever the network does. *)
Lemma onSessionComplete_returns net d t : onSessionComplete net d t = Returns.
Proof. reflexivity. Qed.

(** Two rounds of the render loop are always enough, and [settle] is what
    they produce. *)
Lemma flushEffects_settle net d f :
  flushEffects (onSessionComplete net) (S (S d)) f = Ok (settle f).
Proof.
  destruct f as [[t b m] i]; unfold settle, armed, idle.
  cbn [flushEffects]; unfold useEffect.
  cbn [hooks timeLeft isActive sessionType].
  destruct (b && (t >? 0)) eqn:A.
  - destruct (Z.eqb_spec t 0) as [->|N].
    + rewrite andb_comm in A; discriminate.
    + cbn [bind hooks]; rewrite State_eqb_refl; reflexivity.
  - destruct (Z.eqb_spec t 0) as [->|N].
    + rewrite onSessionComplete_returns.
      destruct m, b; reflexivity.
    + cbn [bind hooks]; rewrite State_eqb_refl; reflexivity.
Qed.

Lemma flushEffects_depth net f :
  flushEffects (onSessionComplete net) updateDepth f = Ok (settle f).
Proof. apply (flushEffects_settle net 48 f). Qed.

Lemma dispatch_same net update f :
  update (hooks f) = hooks f ->
  dispatch (onSessionComplete net) update f = Ok (f, []).
Proof.
  intros E; unfold dispatch; rewrite E, State_eqb_refl; reflexivity.
Qed.

Lemma dispatch_changed net update f :
  update (hooks f) <> hooks f ->
  dispatch (onSessionComplete net) update f
  = Ok (settle (mkFiber (update (hooks f)) (interval f))).
Proof.
  intros N; unfold dispatch.
  rewrite (State_eqb_neq _ _ N); apply flushEffects_depth.
Qed.

(** No action of the mounted timer fails, in any state. *)
Lemma step_total net a f : exists f' evs, step net a f = Ok (f', evs).
Proof.
  assert (D : forall update, exists f' evs,
             dispatch (onSessionComplete net) update f = Ok (f', evs)).
  { intros update; unfold dispatch.
    destruct (State_eqb (update (hooks f)) (hooks f)).
    - eauto.
    - rewrite flushEffects_depth.
      destruct (settle (mkFiber (update (hooks f)) (interval f))); eauto. }
  unfold step, FocusMode.step; destruct a as [[|]| | | |]; auto.
  - destruct (interval f); eauto.
  - rewrite flushEffects_depth; destruct (settle f); eauto.
Qed.

Lemma totalTime_pos m : 0 < totalTime m.
Proof. destruct m; reflexivity. Qed.

Lemma armed_at_rest f :
  at_rest f ->
  interval f = if isActive (hooks f) then Some (timeLeft (hooks f)) else None.
Proof.
  intros [[P _] I]; rewrite I; unfold armed.
  destruct (isActive (hooks f)); simpl; auto.
  apply Z.gtb_lt in P; rewrite P; reflexivity.
Qed.

(** ** The actions, one by one, on a state at rest *)

Lemma step_Tick_idle net f :
  at_rest f -> isActive (hooks f) = false -> step net Tick f = Ok (f, []).
Proof.
  intros R A; apply armed_at_rest in R; rewrite A in R.
  unfold step, FocusMode.step; rewrite R; reflexivity.
Qed.

Lemma step_Tick_running net f :
  at_rest f -> isActive (hooks f) = true ->
  step net Tick f
  = Ok (if timeLeft (hooks f) =? 1
        then (idle (other (sessionType (hooks f)))
                (totalTime (other (sessionType (hooks f)))),
              [SessionComplete (minutes (sessionType (hooks f)))
                 (sessionType (hooks f));
               Alert (notice (sessionType (hooks f)))])
        else (running (sessionType (hooks f)) (timeLeft (hooks f) - 1), [])).
Proof.
  intros R A; pose proof (armed_at_rest f R) as I; rewrite A in I.
  destruct R as [[P _] _].
  destruct f as [[t b m] i]; cbn [hooks timeLeft isActive sessionType interval] in *.
  subst b i; unfold step, FocusMode.step; cbn [interval].
  rewrite dispatch_changed.
  - unfold settle, intervalCallback, setTimeLeft, armed, running;
      cbn [hooks timeLeft isActive sessionType interval].
    destruct (Z.eqb_spec (t - 1) 0), (Z.eqb_spec t 1); try lia; auto.
    replace (t - 1 >? 0) with true by (symmetry; apply Z.gtb_lt; lia).
    reflexivity.
  - unfold intervalCallback, setTimeLeft; cbn.
    intros E; inversion E; lia.
Qed.

Lemma step_ClickToggle net f :
  at_rest f ->
  step net ClickToggle f
  = Ok (if isActive (hooks f)
        then idle (sessionType (hooks f)) (timeLeft (hooks f))
        else running (sessionType (hooks f)) (timeLeft (hooks f)), []).
Proof.
  intros [[P _] _].
  destruct f as [[t b m] i]; cbn [hooks timeLeft isActive sessionType] in *.
  unfold step, FocusMode.step; rewrite dispatch_changed.
  - unfold settle, onClickToggle, setIsActive, armed, running, idle;
      cbn [hooks timeLeft isActive sessionType interval].
    destruct (Z.eqb_spec t 0); try lia.
    destruct b; cbn [negb andb]; auto.
    replace (t >? 0) with true by (symmetry; apply Z.gtb_lt; lia).
    reflexivity.
  - unfold onClickToggle, setIsActive; cbn.
    intros E; inversion E; destruct b; discriminate.
Qed.

(** The two mode buttons and the reset button share one shape: they write a
    full, stopped session of some mode. *)
Lemma dispatch_fresh net update f m :
  (forall s, update s = mkState (totalTime m) false m) ->
  exists f', dispatch (onSessionComplete net) update f = Ok (f', [])
             /\ hooks f' = mkState (totalTime m) false m
             /\ (at_rest f -> f' = idle m (totalTime m)).
Proof.
  intros U.
  destruct (State_eqb (update (hooks f)) (hooks f)) eqn:E.
  - apply State_eqb_eq in E; rewrite dispatch_same by exact E.
    exists f; rewrite <- E, U; repeat split.
    intros R; apply armed_at_rest in R.
    destruct f as [s i]; cbn [hooks interval] in *.
    rewrite U in E; subst s; cbn in R; subst i; reflexivity.
  - assert (N : update (hooks f) <> hooks f).
    { intros C; apply State_eqb_eq in C; congruence. }
    rewrite dispatch_changed by exact N; rewrite U.
    exists (idle m (totalTime m)); repeat split.
    unfold settle; cbn [hooks timeLeft].
    destruct (Z.eqb_spec (totalTime m) 0) as [Z0|_].
    + pose proof (totalTime_pos m); lia.
    + reflexivity.
Qed.

Lemma step_ClickMode net m f :
  exists f', step net (ClickMode m) f = Ok (f', [])
             /\ hooks f' = mkState (totalTime m) false m
             /\ (at_rest f -> f' = idle m (totalTime m)).
Proof.
  unfold step, FocusMode.step; destruct m;
    apply dispatch_fresh; intros s; reflexivity.
Qed.

Lemma step_ClickReset net f :
  exists f', step net ClickReset f = Ok (f', [])
             /\ hooks f' = mkState (totalTime (sessionType (hooks f))) false
                             (sessionType (hooks f))
             /\ (at_rest f ->
                 f' = idle (sessionType (hooks f))
                        (totalTime (sessionType (hooks f)))).
Proof.
  unfold step, FocusMode.step.
  destruct (sessionType (hooks f)) eqn:M.
  - destruct (dispatch_fresh net (fun s => mkState (25 * 60) false work) f work)
      as (f' & D & H); [reflexivity|].
    exists f'; split; [|exact H].
    rewrite <- D; unfold dispatch, onClickReset, setIsActive, setTimeLeft.
    cbn [isActive sessionType timeLeft]; rewrite M; reflexivity.
  - destruct (dispatch_fresh net (fun s => mkState (5 * 60) false break) f break)
      as (f' & D & H); [reflexivity|].
    exists f'; split; [|exact H].
    rewrite <- D; unfold dispatch, onClickReset, setIsActive, setTimeLeft.
    cbn [isActive sessionType timeLeft]; rewrite M; reflexivity.
Qed.

Lemma step_Rerender net f : at_rest f -> step net Rerender f = Ok (f, []).
Proof.
  intros [[P _] I]; unfold step, FocusMode.step.
  rewrite flushEffects_depth; unfold settle.
  destruct (Z.eqb_spec (timeLeft (hooks f)) 0); try lia.
  rewrite <- I; destruct f; reflexivity.
Qed.

(** ** The invariant of the states at rest *)

Lemma at_rest_idle m t : 0 < t <= totalTime m -> at_rest (idle m t).
Proof. intros B; split; [exact B | reflexivity]. Qed.

Lemma at_rest_running m t : 0 < t <= totalTime m -> at_rest (running m t).
Proof.
  intros B; split; [exact B|]; unfold running, armed; cbn.
  replace (t >? 0) with true by (symmetry; apply Z.gtb_lt; lia).
  reflexivity.
Qed.

Lemma at_rest_fresh m : at_rest (idle m (totalTime m)).
Proof. apply at_rest_idle; pose proof (totalTime_pos m); lia. Qed.

Lemma mount_idle_work net : mount net = Ok (idle work 1500, []).
Proof. reflexivity. Qed.

Lemma at_rest_step net a f f' evs :
  at_rest f -> step net a f = Ok (f', evs) -> at_rest f'.
Proof.
  intros R S; pose proof R as [B _].
  destruct a as [m| | | |].
  - destruct (step_ClickMode net m f) as (g & E & _ & G).
    rewrite E in S; inversion S; subst; rewrite (G R); apply at_rest_fresh.
  - rewrite (step_ClickToggle net f R) in S; inversion S; subst.
    destruct (isActive (hooks f));
      [apply at_rest_idle | apply at_rest_running]; exact B.
  - destruct (step_ClickReset net f) as (g & E & _ & G).
    rewrite E in S; inversion S; subst; rewrite (G R); apply at_rest_fresh.
  - destruct (isActive (hooks f)) eqn:A.
    + rewrite (step_Tick_running net f R A) in S.
      destruct (Z.eqb_spec (timeLeft (hooks f)) 1);
        inversion S; subst; [apply at_rest_fresh | apply at_rest_running; lia].
    + rewrite (step_Tick_idle net f R A) in S; inversion S; subst; exact R.
  - rewrite (step_Rerender net f R) in S; inversion S; subst; exact R.
Qed.

Lemma reachable_at_rest f : reachable f -> at_rest f.
Proof.
  induction 1 as [net f evs M | net a f f' evs _ IH S].
  - rewrite mount_idle_work in M; inversion M; subst.
    apply (at_rest_fresh work).
  - exact (at_rest_step net a f f' evs IH S).
Qed.

Lemma reachable_idle_work : reachable (idle work 1500).
Proof. exact (reachable_mount Fulfilled _ _ (mount_idle_work Fulfilled)). Qed.

Lemma reachable_running_work : reachable (running work 1500).
Proof.
  apply (reachable_step Fulfilled ClickToggle (idle work 1500) _ []).
  - exact reachable_idle_work.
  - reflexivity.
Qed.

(** ** Runs of ticks *)

Lemma run_ticks_idle net start n f :
  at_rest f -> isActive (hooks f) = false ->
  run (ticksFrom net start n) f = Ok (f, []).
Proof.
  intros R A; revert start; induction n as [|n IH]; intros start.
  - reflexivity.
  - unfold ticksFrom; cbn [seq map run]; fold (ticksFrom net (S start) n).
    rewrite (step_Tick_idle _ f R A); cbn [bind].
    rewrite IH; reflexivity.
Qed.

Lemma run_ticks_running net n : forall start m t,
  0 < t <= totalTime m ->
  run (ticksFrom net start n) (running m t)
  = Ok (if Z.of_nat n <? t
        then (running m (t - Z.of_nat n), [])
        else (idle (other m) (totalTime (other m)),
              [SessionComplete (minutes m) m; Alert (notice m)])).
Proof.
  induction n as [|n IH]; intros start m t B.
  - cbn [Z.of_nat]; replace (0 <? t) with true by (symmetry; apply Z.ltb_lt; lia).
    rewrite Z.sub_0_r; reflexivity.
  - unfold ticksFrom; cbn [seq map run]; fold (ticksFrom net (S start) n).
    rewrite (step_Tick_running _ _ (at_rest_running m t B) eq_refl).
    cbn [running hooks timeLeft sessionType].
    destruct (Z.eqb_spec t 1) as [->|N]; cbn [bind].
    + rewrite run_ticks_idle by (apply at_rest_fresh || reflexivity).
      cbn [bind app].
      replace (Z.of_nat (S n) <? 1) with false by (symmetry; apply Z.ltb_ge; lia).
      reflexivity.
    + fold (running m (t - 1)); rewrite IH by lia.
      replace (Z.of_nat n <? t - 1) with (Z.of_nat (S n) <? t).
      2:{ destruct (Z.ltb_spec (Z.of_nat (S n)) t), (Z.ltb_spec (Z.of_nat n) (t - 1));
            auto; lia. }
      destruct (Z.of_nat (S n) <? t); cbn [bind app]; [|reflexivity].
      do 3 f_equal; lia.
Qed.

Lemma ticks_at_rest net n f :
  at_rest f ->
  ticks net n f
  = Ok (if isActive (hooks f)
        then if Z.of_nat n <? timeLeft (hooks f)
             then (running (sessionType (hooks f))
                     (timeLeft (hooks f) - Z.of_nat n), [])
             else (idle (other (sessionType (hooks f)))
                     (totalTime (other (sessionType (hooks f)))),
                   [SessionComplete (minutes (sessionType (hooks f)))
                      (sessionType (hooks f));
                    Alert (notice (sessionType (hooks f)))])
        else (f, [])).
Proof.
  intros R; unfold ticks; destruct (isActive (hooks f)) eqn:A.
  - pose proof (armed_at_rest f R) as I; rewrite A in I.
    destruct R as [B _].
    destruct f as [[t b m] i]; cbn [hooks timeLeft isActive sessionType interval] in *.
    subst b i; apply (run_ticks_running net n 0%nat m t B).
  - apply run_ticks_idle; assumption.
Qed.

Lemma reachable_run acts : forall f f' evs,
  reachable f -> run acts f = Ok (f', evs) -> reachable f'.
Proof.
  induction acts as [|[net a] rest IH]; intros f f' evs R E.
  - inversion E; subst; exact R.
  - cbn [run] in E.
    destruct (step net a f) as [[f1 evs1]|] eqn:S; [|discriminate].
    cbn [bind] in E.
    destruct (run rest f1) as [[f2 evs2]|] eqn:T; [|discriminate].
    cbn [bind] in E; inversion E; subst.
    exact (IH f1 f' evs2 (reachable_step net a f f1 evs1 R S) T).
Qed.

(** One action at rest: it succeeds, stays at rest, and calls the recorder
    exactly when it is the tick that takes the countdown from 1 to 0. *)
Lemma step_completions net a f :
  at_rest f ->
  exists f' evs, step net a f = Ok (f', evs)
                 /\ completions evs = (if expires a f then 1 else 0)%nat
                 /\ at_rest f'.
Proof.
  intros R.
  assert (K : forall f' evs, step net a f = Ok (f', evs) ->
                completions evs = (if expires a f then 1 else 0)%nat ->
                exists f' evs, step net a f = Ok (f', evs)
                  /\ completions evs = (if expires a f then 1 else 0)%nat
                  /\ at_rest f').
  { intros f' evs S C; exists f', evs; split; [exact S|]; split; [exact C|].
    exact (at_rest_step net a f f' evs R S). }
  destruct a as [m| | | |]; cbn [expires] in K |- *.
  - destruct (step_ClickMode net m f) as (g & E & _); eapply K; eauto.
  - eapply K; [apply step_ClickToggle; exact R | reflexivity].
  - destruct (step_ClickReset net f) as (g & E & _); eapply K; eauto.
  - destruct (isActive (hooks f)) eqn:A; cbn [andb] in K |- *.
    + pose proof (step_Tick_running net f R A) as S; revert K S.
      destruct (timeLeft (hooks f) =? 1); intros K S;
        (eapply K; [exact S | reflexivity]).
    + eapply K; [apply step_Tick_idle; assumption | reflexivity].
  - eapply K; [apply step_Rerender; exact R | reflexivity].
Qed.

Lemma run_completions acts : forall f,
  at_rest f ->
  exists f' evs, run acts f = Ok (f', evs)
                 /\ completions evs = expiries acts f
                 /\ at_rest f'.
Proof.
  assert (C : forall e1 e2,
             completions (e1 ++ e2) = (completions e1 + completions e2)%nat).
  { induction e1 as [|[d t|msg] e1 IH]; intros e2; cbn; auto. }
  induction acts as [|[net a] rest IH]; intros f R.
  - exists f, []; split; [reflexivity|]; split; [reflexivity | exact R].
  - destruct (step_completions net a f R) as (f1 & evs1 & S & C1 & R1).
    destruct (IH f1 R1) as (f2 & evs2 & T & C2 & R2).
    exists f2, (evs1 ++ evs2); cbn [run expiries]; rewrite S; cbn [bind].
    rewrite T; cbn [bind]; split; [reflexivity|]; split; [|exact R2].
    rewrite C, C1, C2; reflexivity.
Qed.

(** Ticks and re-renders of a stopped timer change and emit nothing. *)
Lemma run_quiet acts f :
  at_rest f -> isActive (hooks f) = false ->
  Forall (fun na => snd na = Tick \/ snd na = Rerender) acts ->
  run acts f = Ok (f, []).
Proof.
  intros R A Q; induction Q as [|[net a] rest [T|T] _ IH];
    try (cbn in T; subst a).
  - reflexivity.
  - cbn [run]; rewrite (step_Tick_idle net f R A); cbn [bind].
    rewrite IH; reflexivity.
  - cbn [run]; rewrite (step_Rerender net f R); cbn [bind].
    rewrite IH; reflexivity.
Qed.

(** C1.  Along every run of the mounted timer, from any reachable state, the
    number of [onSessionComplete] calls equals the number of ticks that took
    [timeLeft] from 1 to 0 while the timer was running, and the timer never
    rests at [timeLeft = 0].  After such a tick the timer is stopped on the
    next session, so later ticks and re-renders call the recorder no more. *)
Theorem completion_fires_once_per_expiry (f : Fiber) :
  reachable f ->
  (forall acts, exists f' evs,
      run acts f = Ok (f', evs)
      /\ completions evs = expiries acts f
      /\ timeLeft (hooks f') <> 0)
  /\ (forall net,
        isActive (hooks f) = true -> timeLeft (hooks f) = 1 ->
        exists f1 evs1,
          step net Tick f = Ok (f1, evs1)
          /\ completions evs1 = 1%nat
          /\ forall acts,
               Forall (fun na => snd na = Tick \/ snd na = Rerender) acts ->
               run acts f1 = Ok (f1, [])).
Proof.
  intros Rf; pose proof (reachable_at_rest f Rf) as R; split.
  - intros acts.
    destruct (run_completions acts f R) as (f' & evs & E & C & [[P _] _]).
    exists f', evs; split; [exact E|]; split; [exact C | lia].
  - intros net A T1.
    rewrite (step_Tick_running net f R A), T1; cbn [Z.eqb Pos.eqb].
    eexists; eexists; split; [reflexivity|]; split; [reflexivity|].
    intros acts Q; apply run_quiet; auto; apply at_rest_fresh.
Qed.

Lemma completion_fires_once_per_expiry_witness :
  (forall acts, exists f' evs,
      run acts (running work 1) = Ok (f', evs)
      /\ completions evs = expiries acts (running work 1)
      /\ timeLeft (hooks f') <> 0)
  /\ (forall net,
        isActive (hooks (running work 1)) = true ->
        timeLeft (hooks (running work 1)) = 1 ->
        exists f1 evs1,
          step net Tick (running work 1) = Ok (f1, evs1)
          /\ completions evs1 = 1%nat
          /\ forall acts,
               Forall (fun na => snd na = Tick \/ snd na = Rerender) acts ->
               run acts f1 = Ok (f1, [])).
Proof.
  apply (completion_fires_once_per_expiry (running work 1)).
  apply (reachable_run (ticksFrom (fun _ => Fulfilled) 0 1499)
           (running work 1500) (running work 1) []).
  - exact reachable_running_work.
  - vm_compute; reflexivity.
Defined.

(** C2.  From WORK with 1500 seconds left and running (the state the start
    button yields after mounting), 1500 ticks call [onSessionComplete(25,
    work)] exactly once and leave the timer stopped on BREAK with 300
    seconds; a full BREAK of 300 ticks calls [onSessionComplete(5, break)]
    once and leaves it stopped on WORK with 1500 seconds.  The fate of the
    requests the recorder sends plays no part. *)
Theorem full_session_completes_once_and_advances (net : nat -> Promise) :
  step (net 0%nat) ClickToggle (idle work 1500) = Ok (running work 1500, [])
  /\ ticks net 1500 (running work 1500)
     = Ok (idle break 300,
           [SessionComplete 25 work; Alert "Session complete! Take a break."])
  /\ ticks net 300 (running break 300)
     = Ok (idle work 1500,
           [SessionComplete 5 break; Alert "Break over! Time to focus."])
  /\ (forall k, (k < 1500)%nat ->
        ticks net k (running work 1500)
        = Ok (running work (1500 - Z.of_nat k), [])).
Proof.
  split; [reflexivity|]; split; [|split].
  - unfold ticks.
    rewrite (run_ticks_running net 1500 0%nat work 1500) by (cbn; lia).
    reflexivity.
  - unfold ticks.
    rewrite (run_ticks_running net 300 0%nat break 300) by (cbn; lia).
    reflexivity.
  - intros k K; unfold ticks.
    rewrite (run_ticks_running net k 0%nat work 1500) by (cbn; lia).
    replace (Z.of_nat k <? 1500) with true by (symmetry; apply Z.ltb_lt; lia).
    reflexivity.
Qed.

(** C3.  In every reachable state [0 <= timeLeft <= totalTime].  The write a
    tick performs is [timeLeft - 1], which is not negative and is rendered
    with the timer still running.  Over any sequence of ticks [timeLeft]
    is never negative, and as long as the timer is running (equivalently,
    until the session completes) the value after more ticks is at most the
    value after fewer. *)
Theorem remaining_bounded_and_counting_down (f : Fiber) :
  reachable f ->
  0 <= timeLeft (hooks f) <= totalTime (sessionType (hooks f))
  /\ (forall t, interval f = Some t ->
        isActive (intervalCallback t (hooks f)) = true
        /\ timeLeft (intervalCallback t (hooks f)) = timeLeft (hooks f) - 1
        /\ 0 <= timeLeft (intervalCallback t (hooks f)))
  /\ (forall net i j, (i <= j)%nat ->
        exists fi evsi fj evsj,
          ticks net i f = Ok (fi, evsi)
          /\ ticks net j f = Ok (fj, evsj)
          /\ 0 <= timeLeft (hooks fi)
          /\ (isActive (hooks fj) = true \/ completions evsj = 0%nat ->
              timeLeft (hooks fj) <= timeLeft (hooks fi))).
Proof.
  intros Rf; pose proof (reachable_at_rest f Rf) as R.
  pose proof R as [[P Q] _]; split; [lia|]; split.
  - intros t I; rewrite (armed_at_rest f R) in I.
    destruct (isActive (hooks f)) eqn:A; inversion I; subst.
    unfold intervalCallback, setTimeLeft; cbn; repeat split; auto; lia.
  - intros net i j L; rewrite !(ticks_at_rest net _ f R).
    pose proof (totalTime_pos (other (sessionType (hooks f)))) as T.
    destruct (isActive (hooks f)) eqn:A.
    + destruct (Z.ltb_spec (Z.of_nat i) (timeLeft (hooks f))) as [I|I],
               (Z.ltb_spec (Z.of_nat j) (timeLeft (hooks f))) as [J|J];
        do 4 eexists; (split; [reflexivity|]); (split; [reflexivity|]);
        cbn; (split; [lia|]); intros [G|G]; try discriminate; lia.
    + do 4 eexists; (split; [reflexivity|]); (split; [reflexivity|]).
      split; [|intros _]; lia.
Qed.

Lemma remaining_bounded_and_counting_down_witness :
  0 <= timeLeft (hooks (running work 1500))
    <= totalTime (sessionType (hooks (running work 1500)))
  /\ (forall t, interval (running work 1500) = Some t ->
        isActive (intervalCallback t (hooks (running work 1500))) = true
        /\ timeLeft (intervalCallback t (hooks (running work 1500)))
           = timeLeft (hooks (running work 1500)) - 1
        /\ 0 <= timeLeft (intervalCallback t (hooks (running work 1500))))
  /\ (forall net i j, (i <= j)%nat ->
        exists fi evsi fj evsj,
          ticks net i (running work 1500) = Ok (fi, evsi)
          /\ ticks net j (running work 1500) = Ok (fj, evsj)
          /\ 0 <= timeLeft (hooks fi)
          /\ (isActive (hooks fj) = true \/ completions evsj = 0%nat ->
              timeLeft (hooks fj) <= timeLeft (hooks fi))).
Proof.
  apply (remaining_bounded_and_counting_down (running work 1500)).
  exact reachable_running_work.
Defined.

(** C4.  Whatever the state before, a mode button leaves the timer stopped
    on the chosen mode with that mode's full duration, which is then also
    its [totalTime]; from a reachable state no interval stays armed.
    "Short Break" gives 300 of 300 seconds, and "Work Session" pressed
    during a running break with 100 seconds left gives WORK, 1500, stopped. *)
Theorem selectMode_yields_fresh_idle_session
    (net : Promise) (m : SessionType) (f : Fiber) :
  (exists f',
      step net (ClickMode m) f = Ok (f', [])
      /\ sessionType (hooks f') = m
      /\ timeLeft (hooks f') = totalTime m
      /\ totalTime (sessionType (hooks f')) = totalTime m
      /\ isActive (hooks f') = false
      /\ (reachable f -> f' = idle m (totalTime m)))
  /\ (exists f',
        step net (ClickMode break) f = Ok (f', [])
        /\ hooks f' = mkState 300 false break
        /\ totalTime (sessionType (hooks f')) = 300)
  /\ step net (ClickMode work) (running break 100) = Ok (idle work 1500, []).
Proof.
  split; [|split].
  - destruct (step_ClickMode net m f) as (f' & S & H & G).
    exists f'; rewrite H; cbn [sessionType timeLeft isActive].
    repeat (split; [solve [auto]|]).
    intros R; exact (G (reachable_at_rest f R)).
  - destruct (step_ClickMode net break f) as (f' & S & H & _).
    exists f'; rewrite H; auto.
  - reflexivity.
Qed.

(** C5, as the claim states it, fails: the only start control is the round
    button, and pressed on a running timer it pauses it. *)
Lemma start_on_running_timer_pauses :
  reachable (running work 1500)
  /\ isActive (hooks (running work 1500)) = true
  /\ step Fulfilled ClickToggle (running work 1500) = Ok (idle work 1500, [])
  /\ hooks (idle work 1500) <> hooks (running work 1500).
Proof.
  split; [exact reachable_running_work|].
  split; [reflexivity|]; split; [reflexivity|].
  cbn; intros E; discriminate E.
Qed.

(** C5, amended.  The round button toggles: on a stopped timer it starts the
    countdown of the same mode from the same [timeLeft] and arms the
    interval; on a running timer it stops it, again keeping mode and
    [timeLeft].  It calls nobody.  No reachable state has [timeLeft = 0], so
    a start at zero never arises. *)
Theorem start_pause_button_toggles (net : Promise) (f : Fiber) :
  reachable f ->
  0 < timeLeft (hooks f)
  /\ (isActive (hooks f) = false ->
      step net ClickToggle f
      = Ok (running (sessionType (hooks f)) (timeLeft (hooks f)), []))
  /\ (isActive (hooks f) = true ->
      step net ClickToggle f
      = Ok (idle (sessionType (hooks f)) (timeLeft (hooks f)), [])).
Proof.
  intros Rf; pose proof (reachable_at_rest f Rf) as R.
  pose proof R as [[P _] _]; split; [exact P|].
  rewrite (step_ClickToggle net f R).
  split; intros ->; reflexivity.
Qed.

Lemma start_pause_button_toggles_witness :
  0 < timeLeft (hooks (idle work 1500))
  /\ (isActive (hooks (idle work 1500)) = false ->
      step Fulfilled ClickToggle (idle work 1500)
      = Ok (running (sessionType (hooks (idle work 1500)))
              (timeLeft (hooks (idle work 1500))), []))
  /\ (isActive (hooks (idle work 1500)) = true ->
      step Fulfilled ClickToggle (idle work 1500)
      = Ok (idle (sessionType (hooks (idle work 1500)))
              (timeLeft (hooks (idle work 1500))), [])).
Proof.
  apply (start_pause_button_toggles Fulfilled (idle work 1500)).
  exact reachable_idle_work.
Defined.

(** C6.  Pausing a running timer stops it and clears the interval while
    [timeLeft], the mode and [totalTime] stay as they were, and a tick that
    arrives afterwards finds no interval and changes nothing.  In the
    scenario start, tick, pause, tick the countdown reads 1499 after the
    first tick and still 1499 at the end. *)
Theorem pause_keeps_remaining_and_silences_ticks
    (net net' : Promise) (f : Fiber) :
  reachable f -> isActive (hooks f) = true ->
  (exists f',
      step net ClickToggle f = Ok (f', [])
      /\ isActive (hooks f') = false
      /\ timeLeft (hooks f') = timeLeft (hooks f)
      /\ sessionType (hooks f') = sessionType (hooks f)
      /\ totalTime (sessionType (hooks f')) = totalTime (sessionType (hooks f))
      /\ interval f' = None
      /\ step net' Tick f' = Ok (f', []))
  /\ run [(net, ClickToggle); (net', Tick)] (idle work 1500)
     = Ok (running work 1499, [])
  /\ run [(net, ClickToggle); (net', Tick); (net, ClickToggle); (net', Tick)]
       (idle work 1500)
     = Ok (idle work 1499, []).
Proof.
  intros Rf A; pose proof (reachable_at_rest f Rf) as R.
  split; [|split; reflexivity].
  rewrite (step_ClickToggle net f R), A.
  eexists; split; [reflexivity|]; cbn [idle hooks interval timeLeft isActive sessionType].
  repeat (split; [reflexivity|]).
  apply step_Tick_idle; [|reflexivity].
  apply at_rest_idle; destruct R as [B _]; exact B.
Qed.

Lemma pause_keeps_remaining_and_silences_ticks_witness :
  (exists f',
      step Fulfilled ClickToggle (running work 1499) = Ok (f', [])
      /\ isActive (hooks f') = false
      /\ timeLeft (hooks f') = timeLeft (hooks (running work 1499))
      /\ sessionType (hooks f') = sessionType (hooks (running work 1499))
      /\ totalTime (sessionType (hooks f'))
         = totalTime (sessionType (hooks (running work 1499)))
      /\ interval f' = None
      /\ step Rejected Tick f' = Ok (f', []))
  /\ run [(Fulfilled, ClickToggle); (Rejected, Tick)] (idle work 1500)
     = Ok (running work 1499, [])
  /\ run [(Fulfilled, ClickToggle); (Rejected, Tick);
          (Fulfilled, ClickToggle); (Rejected, Tick)] (idle work 1500)
     = Ok (idle work 1499, []).
Proof.
  apply (pause_keeps_remaining_and_silences_ticks
           Fulfilled Rejected (running work 1499)).
  - apply (reachable_run [(Fulfilled, ClickToggle); (Rejected, Tick)]
             (idle work 1500) (running work 1499) []).
    + exact reachable_idle_work.
    + vm_compute; reflexivity.
  - reflexivity.
Defined.

(** The reset button, whatever the state before: the timer is stopped on the
    mode it had, with that mode's full duration, and nobody is called. *)
Theorem reset_restores_full_duration (net : Promise) (f : Fiber) :
  exists f',
    step net ClickReset f = Ok (f', [])
    /\ sessionType (hooks f') = sessionType (hooks f)
    /\ timeLeft (hooks f') = totalTime (sessionType (hooks f))
    /\ isActive (hooks f') = false.
Proof.
  destruct (step_ClickReset net f) as (f' & S & H & _).
  exists f'; rewrite H; auto.
Qed.

(** Mounting the component gives WORK, 1500 seconds, stopped, and every
    state it can reach later is at rest: [0 < timeLeft <= totalTime], with
    an interval armed exactly while the timer is running. *)
Theorem mounted_timer_stays_at_rest (net : Promise) :
  mount net = Ok (idle work 1500, [])
  /\ forall f, reachable f ->
       0 < timeLeft (hooks f) <= totalTime (sessionType (hooks f))
       /\ interval f
          = if isActive (hooks f) then Some (timeLeft (hooks f)) else None.
Proof.
  split; [reflexivity|]; intros f Rf.
  pose proof (reachable_at_rest f Rf) as R.
  split; [destruct R as [B _]; exact B | exact (armed_at_rest f R)].
Qed.

(** A recorder that did throw into the effect would stop the timer at zero:
    the effect is not indifferent to how its callback comes back. *)
Lemma throwing_callback_would_break_the_countdown :
  FocusMode.step (fun _ _ => Throws) Tick (running work 1) = Err CallbackThrew.
Proof. reflexivity. Qed.

(** C7.  Whatever becomes of the request the recorder sends: its promise is
    fulfilled (a rejection is caught and logged), the call returns to the
    effect, every action of the timer ends in the same state with the same
    events as under a successful request, and never in an error.  In
    particular the completing tick still advances WORK to a stopped BREAK. *)
Theorem persistence_failure_does_not_reach_the_timer
    (net : Promise) (a : Action) (f : Fiber) (d : Z) (t : SessionType) :
  fst (handleFocusSessionComplete net d t) = Fulfilled
  /\ console (snd (handleFocusSessionComplete Rejected d t))
     = ["Focus session save error:"%string]
  /\ onSessionComplete net d t = Returns
  /\ step net a f = step Fulfilled a f
  /\ (exists f' evs, step net a f = Ok (f', evs))
  /\ (forall acts,
        run acts f = run (map (fun na => (Fulfilled, snd na)) acts) f)
  /\ step Rejected Tick (running work 1)
     = Ok (idle break 300,
           [SessionComplete 25 work; Alert "Session complete! Take a break."]).
Proof.
  split; [destruct net; reflexivity|].
  split; [reflexivity|]; split; [reflexivity|]; split; [reflexivity|].
  split; [apply step_total|]; split; [|reflexivity].
  intros acts; revert f; induction acts as [|[n b] rest IH]; intros f.
  - reflexivity.
  - cbn [map run snd]; change (step n b f) with (step Fulfilled b f).
    destruct (step Fulfilled b f) as [[f1 evs1]|e]; cbn [bind]; [|reflexivity].
    rewrite IH; reflexivity.
Qed.

(* ================================================================== *)
(** * Properties of the endpoints *)

Import Server.

(** ** PATCH *)

Lemma patch_task_absent_fields_keep_row (i : Z) (db : Db) :
  patch_task i (mkTaskPatch JsUndefined JsUndefined) db = (db, mkSuccess true).
Proof. destruct db; reflexivity. Qed.

(** C9.  A PATCH of a lecture whose body does not carry [attendance_status]
    still runs the UPDATE, with NULL bound to the column: the attendance the
    row had is erased, where the task handler, given a body without its
    fields, leaves the row alone. *)
Theorem patch_lecture_without_field_erases_attendance :
  patch_lecture 1 (mkLecturePatch JsUndefined) (mkDb [] [attended_lecture])
  = (mkDb [] [Lectures.mkRow 1 "Algorithms" (Some "Sorting") None
                (Some "2025-01-10") 0],
     mkSuccess true)
  /\ Lectures.attendance_status attended_lecture = Some "Present"%string
  /\ (forall i db,
        patch_task i (mkTaskPatch JsUndefined JsUndefined) db
        = (db, mkSuccess true)).
Proof.
  split; [reflexivity|]; split; [reflexivity|].
  intros i db; apply patch_task_absent_fields_keep_row.
Qed.

(** ** GET /api/tasks *)

Lemma text_leb_total (a b : Text) : text_leb a b = false -> text_leb b a = true.
Proof.
  destruct a as [x|], b as [y|]; cbn; try congruence.
  destruct (OrdersEx.String_as_OT.compare_spec x y) as [E|L|G]; try congruence.
  intros _; unfold OrdersEx.String_as_OT.lt in G; rewrite G; reflexivity.
Qed.

Lemma text_leb_trans (a b c : Text) :
  text_leb a b = true -> text_leb b c = true -> text_leb a c = true.
Proof.
  destruct a as [x|], b as [y|], c as [z|]; cbn; try congruence.
  destruct (OrdersEx.String_as_OT.compare_spec x y) as [E|L|G]; try congruence;
    destruct (OrdersEx.String_as_OT.compare_spec y z) as [E'|L'|G']; try congruence;
    intros _ _; unfold OrdersEx.String_as_OT.eq, OrdersEx.String_as_OT.lt in *;
    subst.
  - destruct (OrdersEx.String_as_OT.compare_spec z z) as [_|A|A]; auto.
    exfalso; exact (StrictOrder_Irreflexive z A).
  - rewrite L'; reflexivity.
  - rewrite L; reflexivity.
  - pose proof (StrictOrder_Transitive x y z L L') as T.
    unfold OrdersEx.String_as_OT.lt in T; rewrite T; reflexivity.
Qed.

Lemma place_desc_perm r : forall l, Permutation (place_desc r l) (r :: l).
Proof.
  induction l as [|x l IH]; cbn [place_desc].
  - apply Permutation_refl.
  - destruct (text_leb (Tasks.created_at x) (Tasks.created_at r)).
    + apply Permutation_refl.
    + apply perm_trans with (x :: r :: l);
        [apply perm_skip; exact IH | apply perm_swap].
Qed.

Lemma place_desc_sorted r : forall l,
  StronglySorted newer_or_same l -> StronglySorted newer_or_same (place_desc r l).
Proof.
  induction l as [|x l IH]; intros S; cbn [place_desc].
  - repeat constructor.
  - apply StronglySorted_inv in S; destruct S as [S F].
    destruct (text_leb (Tasks.created_at x) (Tasks.created_at r)) eqn:E.
    + constructor; [constructor; assumption|].
      constructor; [exact E|].
      eapply Forall_impl; [|exact F]; intros y Y; unfold newer_or_same in *.
      exact (text_leb_trans _ _ _ Y E).
    + constructor; [exact (IH S)|].
      apply (Permutation_Forall (Permutation_sym (place_desc_perm r l))).
      constructor; [exact (text_leb_total _ _ E) | exact F].
Qed.

(** C10.  The list of tasks is the whole table, each row once, arranged so
    that every row comes before all rows whose [created_at] is smaller: the
    most recently created first. *)
Theorem get_tasks_newest_first (db : Db) :
  Permutation (get_tasks db) (tasks db)
  /\ StronglySorted newer_or_same (get_tasks db).
Proof.
  unfold get_tasks, order_by_created_at_desc.
  induction (tasks db) as [|r rows [P S]]; cbn [fold_right].
  - split; constructor.
  - split.
    + apply perm_trans with (r :: fold_right place_desc [] rows);
        [apply place_desc_perm | apply perm_skip; exact P].
    + apply place_desc_sorted; exact S.
Qed.

(** The lecture handler always writes [attendance_status] of the rows with
    the given id, to the value of the body's field or to NULL when the body
    has none; the other columns, the other rows, the order of the rows and
    the tasks are as before, and the answer is [{ success: true }]. *)
Theorem patch_lecture_overwrites_attendance
    (i : Z) (body : LecturePatch) (db : Db) :
  snd (patch_lecture i body db) = mkSuccess true
  /\ tasks (fst (patch_lecture i body db)) = tasks db
  /\ lectures (fst (patch_lecture i body db))
     = map (fun r =>
              if Lectures.id r =? i
              then Lectures.mkRow (Lectures.id r) (Lectures.subject r)
                     (Lectures.topic r)
                     (bindValue (body_attendance_status body))
                     (Lectures.date r) (Lectures.completed r)
              else r) (lectures db).
Proof. repeat split. Qed.

(* ================================================================== *)
(** * Further properties of the timer *)

(** A running countdown with [timeLeft = t] takes exactly [t] ticks: fewer
    ticks leave it running, [t] less by their number, and call nobody; [t]
    ticks or more complete the session once and leave the timer stopped on
    the other mode with its full duration.  A stopped timer ignores ticks. *)
Theorem countdown_completes_exactly_at_zero (f : Fiber) :
  reachable f ->
  forall net n,
    (isActive (hooks f) = true -> Z.of_nat n < timeLeft (hooks f) ->
     ticks net n f
     = Ok (running (sessionType (hooks f)) (timeLeft (hooks f) - Z.of_nat n), []))
    /\ (isActive (hooks f) = true -> timeLeft (hooks f) <= Z.of_nat n ->
        ticks net n f
        = Ok (idle (other (sessionType (hooks f)))
                (totalTime (other (sessionType (hooks f)))),
              [SessionComplete (minutes (sessionType (hooks f)))
                 (sessionType (hooks f));
               Alert (notice (sessionType (hooks f)))]))
    /\ (isActive (hooks f) = false -> ticks net n f = Ok (f, [])).
Proof.
  intros Rf net n; pose proof (reachable_at_rest f Rf) as R.
  rewrite (ticks_at_rest net n f R).
  split; [|split].
  - intros -> L; apply Z.ltb_lt in L; rewrite L; reflexivity.
  - intros -> L; apply Z.ltb_ge in L; rewrite L; reflexivity.
  - intros ->; reflexivity.
Qed.

Lemma countdown_completes_exactly_at_zero_witness :
  (isActive (hooks (running break 300)) = true ->
   Z.of_nat 299 < timeLeft (hooks (running break 300)) ->
   ticks (fun _ => Rejected) 299 (running break 300)
   = Ok (running (sessionType (hooks (running break 300)))
           (timeLeft (hooks (running break 300)) - Z.of_nat 299), []))
  /\ (isActive (hooks (running break 300)) = true ->
      timeLeft (hooks (running break 300)) <= Z.of_nat 299 ->
      ticks (fun _ => Rejected) 299 (running break 300)
      = Ok (idle (other (sessionType (hooks (running break 300))))
              (totalTime (other (sessionType (hooks (running break 300))))),
            [SessionComplete (minutes (sessionType (hooks (running break 300))))
               (sessionType (hooks (running break 300)));
             Alert (notice (sessionType (hooks (running break 300))))]))
  /\ (isActive (hooks (running break 300)) = false ->
      ticks (fun _ => Rejected) 299 (running break 300)
      = Ok (running break 300, [])).
Proof.
  apply (countdown_completes_exactly_at_zero (running break 300)).
  apply (reachable_run [(Fulfilled, ClickMode break); (Fulfilled, ClickToggle)]
           (idle work 1500) (running break 300) []).
  - exact reachable_idle_work.
  - vm_compute; reflexivity.
Defined.

(** Pausing and resuming, or starting and pausing at once, brings the timer
    back to the very state it was in: no second is lost or gained and nobody
    is called. *)
Theorem toggling_twice_restores_the_state (net net' : Promise) (f : Fiber) :
  reachable f ->
  run [(net, ClickToggle); (net', ClickToggle)] f = Ok (f, []).
Proof.
  intros Rf; pose proof (reachable_at_rest f Rf) as R.
  pose proof (armed_at_rest f R) as I; pose proof R as [B _].
  cbn [run]; rewrite (step_ClickToggle net f R); cbn [bind].
  destruct f as [[t b m] i]; cbn [hooks timeLeft isActive sessionType interval] in *.
  destruct b; subst i.
  - rewrite (step_ClickToggle net' _ (at_rest_idle m t B)); reflexivity.
  - rewrite (step_ClickToggle net' _ (at_rest_running m t B)); reflexivity.
Qed.

Lemma toggling_twice_restores_the_state_witness :
  run [(Fulfilled, ClickToggle); (Rejected, ClickToggle)] (running work 1500)
  = Ok (running work 1500, []).
Proof.
  apply (toggling_twice_restores_the_state Fulfilled Rejected (running work 1500)).
  exact reachable_running_work.
Defined.

(** In every state the reset button does what the button of the current
    mode does, and a mode button pressed a second time changes nothing. *)
Theorem reset_is_the_current_mode_button (net net' : Promise) (f : Fiber) :
  step net ClickReset f = step net (ClickMode (sessionType (hooks f))) f
  /\ forall m f1 evs,
       step net (ClickMode m) f = Ok (f1, evs) ->
       step net' (ClickMode m) f1 = Ok (f1, []).
Proof.
  split.
  - unfold step, FocusMode.step, dispatch.
    destruct f as [[t b [|]] i]; reflexivity.
  - intros m f1 evs S.
    destruct (step_ClickMode net m f) as (g & E & H & _).
    rewrite E in S; inversion S; subst g evs.
    unfold step, FocusMode.step.
    destruct m; apply dispatch_same; rewrite H; reflexivity.
Qed.

(** Between two states at rest the mode changes only by a mode button or by
    the tick that completes a session; every other action keeps the mode
    and calls nobody. *)
Theorem mode_changes_only_by_button_or_completion
    (net : Promise) (a : Action) (f : Fiber) :
  reachable f ->
  (forall m, a <> ClickMode m) -> expires a f = false ->
  exists f', step net a f = Ok (f', [])
             /\ sessionType (hooks f') = sessionType (hooks f).
Proof.
  intros Rf NM NE; pose proof (reachable_at_rest f Rf) as R.
  destruct a as [m| | | |].
  - exfalso; exact (NM m eq_refl).
  - rewrite (step_ClickToggle net f R); eexists; split; [reflexivity|].
    destruct (isActive (hooks f)); reflexivity.
  - destruct (step_ClickReset net f) as (f' & S & H & _).
    exists f'; rewrite H; auto.
  - cbn [expires] in NE; destruct (isActive (hooks f)) eqn:A.
    + rewrite (step_Tick_running net f R A); cbn [andb] in NE; rewrite NE.
      eexists; split; reflexivity.
    + rewrite (step_Tick_idle net f R A); eauto.
  - rewrite (step_Rerender net f R); eauto.
Qed.

Lemma mode_changes_only_by_button_or_completion_witness :
  exists f', step Fulfilled Tick (running work 1500) = Ok (f', [])
             /\ sessionType (hooks f') = sessionType (hooks (running work 1500)).
Proof.
  apply (mode_changes_only_by_button_or_completion Fulfilled Tick
           (running work 1500)).
  - exact reachable_running_work.
  - intros m E; discriminate E.
  - reflexivity.
Defined.

Lemma nominal_app e1 e2 :
  nominal e1 = true -> nominal e2 = true -> nominal (e1 ++ e2) = true.
Proof.
  revert e1; fix IH 1; intros [|[d t|msg] [|[d' t'|msg'] rest]] N1 N2;
    cbn in *; try discriminate; auto.
  apply andb_true_iff in N1; destruct N1 as [N1 N].
  rewrite N1; cbn; apply IH; assumption.
Qed.

Lemma run_nominal (acts : list (Promise * Action)) : forall f,
  at_rest f ->
  exists f' evs, run acts f = Ok (f', evs) /\ nominal evs = true.
Proof.
  induction acts as [|[net a] rest IH]; intros f R.
  - exists f, []; split; reflexivity.
  - assert (S1 : exists f1 evs1, step net a f = Ok (f1, evs1)
                                 /\ nominal evs1 = true /\ at_rest f1).
    { destruct (step_completions net a f R) as (f1 & evs1 & S & _ & R1).
      exists f1, evs1; split; [exact S|]; split; [|exact R1].
      destruct a as [m| | | |].
      - destruct (step_ClickMode net m f) as (g & E & _).
        rewrite E in S; inversion S; reflexivity.
      - rewrite (step_ClickToggle net f R) in S; inversion S; reflexivity.
      - destruct (step_ClickReset net f) as (g & E & _).
        rewrite E in S; inversion S; reflexivity.
      - destruct (isActive (hooks f)) eqn:A.
        + rewrite (step_Tick_running net f R A) in S.
          destruct (timeLeft (hooks f) =? 1); inversion S; subst;
            [destruct (sessionType (hooks f)) | ]; reflexivity.
        + rewrite (step_Tick_idle net f R A) in S; inversion S; reflexivity.
      - rewrite (step_Rerender net f R) in S; inversion S; reflexivity. }
    destruct S1 as (f1 & evs1 & S & N1 & R1).
    destruct (IH f1 R1) as (f2 & evs2 & T & N2).
    exists f2, (evs1 ++ evs2); cbn [run]; rewrite S; cbn [bind].
    rewrite T; cbn [bind]; split; [reflexivity | apply nominal_app; assumption].
Qed.

(** Whatever the user does, the recorder is only ever called with 25
    minutes for a WORK session or 5 for a BREAK, and each call is followed
    at once by the notice of that mode: the trace of any run is a sequence
    of such pairs. *)
Theorem completions_report_the_nominal_duration
    (acts : list (Promise * Action)) (f : Fiber) :
  reachable f ->
  exists f' evs, run acts f = Ok (f', evs) /\ nominal evs = true.
Proof.
  intros Rf; exact (run_nominal acts f (reachable_at_rest f Rf)).
Qed.

Lemma completions_report_the_nominal_duration_witness :
  exists f' evs,
    run [(Rejected, Tick); (Fulfilled, ClickToggle)] (running work 1)
    = Ok (f', evs)
    /\ nominal evs = true.
Proof.
  apply (completions_report_the_nominal_duration
           [(Rejected, Tick); (Fulfilled, ClickToggle)] (running work 1)).
  apply (reachable_run (ticksFrom (fun _ => Fulfilled) 0 1499)
           (running work 1500) (running work 1) []).
  - exact reachable_running_work.
  - vm_compute; reflexivity.
Defined.

(** ** The display *)

Import FocusView.

Lemma digits_nonnil n : digits n <> Decimal.Nil.
Proof.
  destruct n; cbn; try discriminate.
  apply DecimalPos.Unsigned.to_uint_nonnil.
Qed.

Lemma toString_digits n :
  0 <= n -> toString n = NilEmpty.string_of_uint (digits n).
Proof.
  intros N; destruct n as [|p|p]; try lia; try reflexivity.
  unfold toString; cbn.
  pose proof (DecimalPos.Unsigned.to_uint_nonnil p) as H.
  destruct (Pos.to_uint p); try reflexivity; contradiction.
Qed.

Lemma of_uint_digits n : 0 <= n -> Z.of_uint (digits n) = n.
Proof.
  intros N; destruct n as [|p|p]; try lia; try reflexivity.
  cbn; unfold Z.of_uint; rewrite DecimalPos.Unsigned.of_to; reflexivity.
Qed.

(** Padding a numeral keeps it a numeral of the same value. *)
Lemma padStart2_digits d :
  d <> Decimal.Nil ->
  exists d', padStart2 (NilEmpty.string_of_uint d) = NilEmpty.string_of_uint d'
             /\ d' <> Decimal.Nil /\ Z.of_uint d' = Z.of_uint d.
Proof.
  intros N; unfold padStart2.
  destruct (String.length (NilEmpty.string_of_uint d)) as [|[|k]] eqn:L.
  - destruct d; try contradiction; discriminate L.
  - exists (Decimal.D0 d); repeat split; discriminate.
  - exists d; auto.
Qed.

(** A numeral holds no colon. *)
Lemma splitAtColon_digits d rest :
  splitAtColon (NilEmpty.string_of_uint d ++ String ":"%char rest)
  = Some (NilEmpty.string_of_uint d, rest).
Proof.
  induction d; cbn; rewrite ?IHd; reflexivity.
Qed.

Lemma int_of_string_digits d :
  d <> Decimal.Nil ->
  NilZero.int_of_string (NilEmpty.string_of_uint d) = Some (Decimal.Pos d).
Proof.
  intros N.
  replace (NilEmpty.string_of_uint d) with (NilZero.string_of_int (Decimal.Pos d))
    by (destruct d; try reflexivity; contradiction).
  apply NilZero.isi; congruence.
Qed.

Lemma readTime_formatTime s : 0 <= s -> readTime (formatTime s) = Some s.
Proof.
  intros S; unfold formatTime, readTime.
  assert (M : 0 <= s / 60) by (apply Z.div_pos; lia).
  assert (R : 0 <= Z.rem s 60) by (apply Z.rem_nonneg; lia).
  rewrite (toString_digits _ M), (toString_digits _ R).
  destruct (padStart2_digits _ (digits_nonnil (s / 60))) as (dm & -> & Nm & Em).
  destruct (padStart2_digits _ (digits_nonnil (Z.rem s 60))) as (dr & -> & Nr & Er).
  change (":" ++ NilEmpty.string_of_uint dr)%string
    with (String ":"%char (NilEmpty.string_of_uint dr)).
  rewrite splitAtColon_digits, !int_of_string_digits by assumption.
  cbn [Z.of_int]; rewrite Em, Er, !of_uint_digits by assumption.
  rewrite Z.rem_mod_nonneg by lia.
  f_equal; symmetry; apply Z.div_mod; lia.
Qed.

Lemma formatTime_five_characters_below_6000 :
  forallb (fun n => (String.length (formatTime (Z.of_nat n)) =? 5)%nat)
    (seq 0 (60 * 100)) = true.
Proof. vm_compute; reflexivity. Qed.

(** The text shown for a whole number of seconds from 0 to
    [Number.MAX_SAFE_INTEGER] reads back as that number, so two different
    times in that range never look the same; below 100 minutes it has
    exactly five characters, and from 100 minutes on it has more. *)
Theorem formatTime_loses_nothing (s : Z) :
  0 <= s <= max_safe_integer ->
  readTime (formatTime s) = Some s
  /\ (forall s', 0 <= s' <= max_safe_integer ->
                 formatTime s = formatTime s' -> s = s')
  /\ (s < 6000 -> String.length (formatTime s) = 5%nat)
  /\ formatTime 6000 = "100:00"%string.
Proof.
  intros [S _]; split; [exact (readTime_formatTime s S)|]; split; [|split].
  - intros s' [S' _] E.
    pose proof (readTime_formatTime s S) as A.
    rewrite E, (readTime_formatTime s' S') in A; congruence.
  - intros L.
    pose proof (proj1 (forallb_forall _ _) formatTime_five_characters_below_6000
                  (Z.to_nat s)) as H.
    cbv beta in H; rewrite Z2Nat.id in H by exact S.
    apply Nat.eqb_eq, H, in_seq; lia.
  - reflexivity.
Qed.

Lemma formatTime_loses_nothing_witness :
  readTime (formatTime 1500) = Some 1500
  /\ (forall s', 0 <= s' <= max_safe_integer ->
                 formatTime 1500 = formatTime s' -> 1500 = s')
  /\ (1500 < 6000 -> String.length (formatTime 1500) = 5%nat)
  /\ formatTime 6000 = "100:00"%string.
Proof.
  apply (formatTime_loses_nothing 1500); unfold max_safe_integer; lia.
Defined.

(* ================================================================== *)
(** * Further properties of the endpoints *)

Lemma Text_eqb_eq (a b : Text) : Text_eqb a b = true <-> a = b.
Proof.
  destruct a as [x|], b as [y|]; cbn; try (split; congruence).
  rewrite String.eqb_eq; split; congruence.
Qed.

Lemma Text_eqb_refl (a : Text) : Text_eqb a a = true.
Proof. apply Text_eqb_eq; reflexivity. Qed.

Lemma Text_eqb_neq (a b : Text) : a <> b -> Text_eqb a b = false.
Proof.
  intros N; destruct (Text_eqb a b) eqn:E; auto.
  apply Text_eqb_eq in E; contradiction.
Qed.

(** ** Ids *)

Lemma next_id_above ids : 0 < next_id ids /\ Forall (fun i => i < next_id ids) ids.
Proof.
  unfold next_id; induction ids as [|k ids [P F]]; cbn [fold_right].
  - split; [lia | constructor].
  - split; [lia|]; constructor; [lia|].
    eapply Forall_impl; [|exact F]; cbv beta; intros; lia.
Qed.

Lemma next_id_fresh ids : ~ In (next_id ids) ids.
Proof.
  intros I; destruct (next_id_above ids) as [_ F].
  rewrite Forall_forall in F; specialize (F _ I); lia.
Qed.

Lemma NoDup_snoc (ids : list Z) (i : Z) :
  NoDup ids -> ~ In i ids -> NoDup (ids ++ [i]).
Proof.
  intros D N; apply (Permutation_NoDup (l := i :: ids)).
  - apply Permutation_cons_append.
  - constructor; assumption.
Qed.

Lemma update_task_status_ids v i rows :
  map Tasks.id (update_task_status v i rows) = map Tasks.id rows.
Proof.
  unfold update_task_status; rewrite map_map; apply map_ext.
  intros r; destruct (Tasks.id r =? i); reflexivity.
Qed.

Lemma update_task_priority_ids v i rows :
  map Tasks.id (update_task_priority v i rows) = map Tasks.id rows.
Proof.
  unfold update_task_priority; rewrite map_map; apply map_ext.
  intros r; destruct (Tasks.id r =? i); reflexivity.
Qed.

Lemma update_lecture_attendance_ids v i rows :
  map Lectures.id (update_lecture_attendance v i rows) = map Lectures.id rows.
Proof.
  unfold update_lecture_attendance; rewrite map_map; apply map_ext.
  intros r; destruct (Lectures.id r =? i); reflexivity.
Qed.

Lemma patch_task_ids i body db :
  map Tasks.id (tasks (fst (patch_task i body db))) = map Tasks.id (tasks db)
  /\ lectures (fst (patch_task i body db)) = lectures db.
Proof.
  split; [|reflexivity]; unfold patch_task; cbn [fst tasks].
  destruct (truthy (body_status body)), (truthy (body_priority body));
    rewrite ?update_task_priority_ids, ?update_task_status_ids; reflexivity.
Qed.

(** The ids of both tables stay pairwise distinct under every handler that
    writes: the two PATCH handlers keep the ids, and the two POST handlers
    add an id larger than all the others. *)
Theorem primary_keys_stay_unique (db : Db) :
  NoDup (map Tasks.id (tasks db)) ->
  NoDup (map Lectures.id (lectures db)) ->
  forall db',
    ((exists i body, db' = fst (patch_task i body db))
     \/ (exists i body, db' = fst (patch_lecture i body db))
     \/ (exists now body, db' = fst (post_task now body db))
     \/ (exists body, db' = fst (post_lecture body db))) ->
    NoDup (map Tasks.id (tasks db')) /\ NoDup (map Lectures.id (lectures db')).
Proof.
  intros DT DL db' [(i & body & ->)|[(i & body & ->)|[(now & body & ->)|(body & ->)]]].
  - destruct (patch_task_ids i body db) as [-> ->]; auto.
  - unfold patch_lecture; cbn [fst tasks lectures].
    rewrite update_lecture_attendance_ids; auto.
  - unfold post_task; destruct (bindValue (post_title body)); [|auto].
    destruct (next_id (map Tasks.id (tasks db)) <=? max_rowid);
      cbn [fst tasks lectures]; [|auto].
    split; [|exact DL]; rewrite map_app; cbn [map Tasks.id].
    apply NoDup_snoc; [exact DT | apply next_id_fresh].
  - unfold post_lecture; destruct (bindValue (post_subject body)); [|auto].
    destruct (next_id (map Lectures.id (lectures db)) <=? max_rowid);
      cbn [fst tasks lectures]; [|auto].
    split; [exact DT|]; rewrite map_app; cbn [map Lectures.id].
    apply NoDup_snoc; [exact DL | apply next_id_fresh].
Qed.

Lemma primary_keys_stay_unique_witness :
  NoDup (map Tasks.id
           (tasks (fst (post_task "2025-01-11 08:30:00"
                          (mkTaskPost (JsString "Revise") JsUndefined JsUndefined
                             JsUndefined JsUndefined)
                          (mkDb [sample_task] [attended_lecture])))))
  /\ NoDup (map Lectures.id
              (lectures (fst (post_task "2025-01-11 08:30:00"
                                (mkTaskPost (JsString "Revise") JsUndefined
                                   JsUndefined JsUndefined JsUndefined)
                                (mkDb [sample_task] [attended_lecture]))))).
Proof.
  apply (primary_keys_stay_unique (mkDb [sample_task] [attended_lecture])).
  - cbn; constructor; [intros []|constructor].
  - cbn; constructor; [intros []|constructor].
  - right; right; left; eexists; eexists; reflexivity.
Defined.

(** ** POST /api/tasks *)

Lemma place_desc_on_top r x rest :
  text_leb (Tasks.created_at x) (Tasks.created_at r) = false ->
  place_desc r (x :: rest) = x :: place_desc r rest.
Proof. intros E; cbn [place_desc]; rewrite E; reflexivity. Qed.

Lemma order_by_created_at_desc_perm rows :
  Permutation (order_by_created_at_desc rows) rows.
Proof.
  unfold order_by_created_at_desc.
  induction rows as [|r rows IH]; cbn [fold_right]; [constructor|].
  apply perm_trans with (r :: fold_right place_desc [] rows);
    [apply place_desc_perm | apply perm_skip; exact IH].
Qed.

Lemma get_tasks_snoc rows lects row :
  Permutation (get_tasks (mkDb (rows ++ [row]) lects))
    (row :: get_tasks (mkDb rows lects))
  /\ (Forall (fun r => text_leb (Tasks.created_at row) (Tasks.created_at r) = false)
        rows ->
      get_tasks (mkDb (rows ++ [row]) lects) = row :: get_tasks (mkDb rows lects)).
Proof.
  unfold get_tasks, order_by_created_at_desc; cbn [tasks]; split.
  - apply perm_trans with (rows ++ [row]).
    + apply (order_by_created_at_desc_perm (rows ++ [row])).
    + apply perm_trans with (row :: rows).
      * apply Permutation_sym, Permutation_cons_append.
      * apply perm_skip, Permutation_sym, order_by_created_at_desc_perm.
  - intros F; rewrite fold_right_app; cbn [fold_right].
    induction F as [|r rows O _ IH]; cbn [fold_right]; [reflexivity|].
    rewrite IH; cbn [place_desc]; rewrite O; reflexivity.
Qed.

Lemma asNumber_safe i : Z.abs i <= max_safe_integer -> asNumber i = i.
Proof.
  intros H; unfold asNumber.
  replace (Z.abs i <? 2 ^ 53) with true; [reflexivity|].
  symmetry; apply Z.ltb_lt; unfold max_safe_integer in H.
  change (2 ^ 53) with 9007199254740992; lia.
Qed.

(** Creating a task, whatever the body holds and however the driver treats
    it.  The request fails and stores nothing when the driver throws, when
    the value bound to [title] is NULL, and when the ids are used up.
    Otherwise exactly one row is appended: it holds the five bound values
    and the timestamp under an id that is positive and larger than every id
    in the table, and the answer carries that id (unchanged as long as it is
    a safe integer); the listing then holds that row and all the rows it
    held before, and shows the new row first when its timestamp is later
    than all the others.  For a body with nothing but a title string, the
    row's priority and status are NULL, not the defaults 'medium' and
    'todo'. *)
Theorem post_task_stores_a_fresh_row
    (Value : Type) (boundAll : list Value -> option (list Text))
    (now : string) (title description priority status due_date : Value)
    (db : Db) :
  (snd (post_task_any Value boundAll now title description priority status
          due_date db) = ServerError ->
   fst (post_task_any Value boundAll now title description priority status
          due_date db) = db)
  /\ (boundAll [title; description; priority; status; due_date] = None ->
      post_task_any Value boundAll now title description priority status
        due_date db = (db, ServerError))
  /\ (forall d p s u,
        boundAll [title; description; priority; status; due_date]
        = Some [None; d; p; s; u] ->
        post_task_any Value boundAll now title description priority status
          due_date db = (db, ServerError))
  /\ (max_rowid < next_id (map Tasks.id (tasks db)) ->
      post_task_any Value boundAll now title description priority status
        due_date db = (db, ServerError))
  /\ (forall t d p s u,
        boundAll [title; description; priority; status; due_date]
        = Some [Some t; d; p; s; u] ->
        next_id (map Tasks.id (tasks db)) <= max_rowid ->
        exists i,
          i = next_id (map Tasks.id (tasks db))
          /\ post_task_any Value boundAll now title description priority status
               due_date db
             = (mkDb (tasks db ++ [Tasks.mkRow i t d p s u (Some now)])
                  (lectures db),
                Sent (asNumber i))
          /\ 0 < i
          /\ Forall (fun r => Tasks.id r < i) (tasks db)
          /\ (i <= max_safe_integer -> asNumber i = i)
          /\ Permutation
               (get_tasks (mkDb (tasks db ++ [Tasks.mkRow i t d p s u (Some now)])
                             (lectures db)))
               (Tasks.mkRow i t d p s u (Some now) :: get_tasks db)
          /\ (Forall (fun r => text_leb (Some now) (Tasks.created_at r) = false)
                (tasks db) ->
              get_tasks (mkDb (tasks db ++ [Tasks.mkRow i t d p s u (Some now)])
                           (lectures db))
              = Tasks.mkRow i t d p s u (Some now) :: get_tasks db))
  /\ (forall body,
        post_task now body db
        = post_task_any JsValue (fun l => Some (map bindValue l)) now
            (post_title body) (post_description body) (post_priority body)
            (post_status body) (post_due_date body) db)
  /\ (forall t,
        next_id (map Tasks.id (tasks db)) <= max_rowid ->
        fst (post_task now
               (mkTaskPost (JsString t) JsUndefined JsUndefined JsUndefined
                  JsUndefined) db)
        = mkDb (tasks db ++
                  [Tasks.mkRow (next_id (map Tasks.id (tasks db))) t None None
                     None None (Some now)])
            (lectures db)).
Proof.
  split; [|split; [|split; [|split; [|split; [|split]]]]].
  - unfold post_task_any.
    destruct (boundAll [title; description; priority; status; due_date])
      as [[|[t|] [|d [|p [|s0 [|u [|x l]]]]]]|]; try reflexivity.
    destruct (next_id (map Tasks.id (tasks db)) <=? max_rowid);
      [intros E; discriminate E | reflexivity].
  - intros E; unfold post_task_any; rewrite E; reflexivity.
  - intros d p s0 u E; unfold post_task_any; rewrite E; reflexivity.
  - intros L; unfold post_task_any.
    replace (next_id (map Tasks.id (tasks db)) <=? max_rowid) with false
      by (symmetry; apply Z.leb_gt; exact L).
    destruct (boundAll [title; description; priority; status; due_date])
      as [[|[t|] [|d [|p [|s0 [|u [|x l]]]]]]|]; reflexivity.
  - intros t d p s0 u E L; exists (next_id (map Tasks.id (tasks db))).
    split; [reflexivity|].
    unfold post_task_any; rewrite E.
    replace (next_id (map Tasks.id (tasks db)) <=? max_rowid) with true
      by (symmetry; apply Z.leb_le; exact L).
    destruct (next_id_above (map Tasks.id (tasks db))) as [P F].
    split; [reflexivity|]; split; [exact P|]; split.
    { rewrite Forall_map in F; exact F. }
    split; [intros S; apply asNumber_safe; lia|].
    destruct db as [rows lects]; cbn [tasks lectures].
    exact (get_tasks_snoc rows lects _).
  - intros body; unfold post_task, post_task_any; cbn [map].
    destruct (bindValue (post_title body)); reflexivity.
  - intros t L; unfold post_task; cbn [post_title bindValue].
    replace (next_id (map Tasks.id (tasks db)) <=? max_rowid) with true
      by (symmetry; apply Z.leb_le; exact L).
    reflexivity.
Qed.

(** ** PATCH on an id that is not there, and PATCH repeated *)

Lemma map_unchanged {A : Type} (g : A -> A) (l : list A) :
  (forall x, In x l -> g x = x) -> map g l = l.
Proof.
  intros H; induction l as [|x l IH]; cbn; [reflexivity|].
  rewrite H by (left; reflexivity); rewrite IH; auto.
  intros y Y; apply H; right; exact Y.
Qed.

Lemma Forall2_map_same {A : Type} (R : A -> A -> Prop) (g : A -> A) (l : list A) :
  (forall x, R x (g x)) -> Forall2 R l (map g l).
Proof. intros H; induction l; cbn; constructor; auto. Qed.

Lemma set_status_frame v i r :
  untouched (set_status v i r) = untouched r
  /\ Tasks.priority (set_status v i r) = Tasks.priority r
  /\ (Tasks.id r <> i -> set_status v i r = r).
Proof.
  unfold set_status; destruct (Z.eqb_spec (Tasks.id r) i);
    repeat split; auto; intros N; contradiction.
Qed.

Lemma set_priority_frame v i r :
  untouched (set_priority v i r) = untouched r
  /\ Tasks.status (set_priority v i r) = Tasks.status r
  /\ (Tasks.id r <> i -> set_priority v i r = r).
Proof.
  unfold set_priority; destruct (Z.eqb_spec (Tasks.id r) i);
    repeat split; auto; intros N; contradiction.
Qed.

(** Whatever a PATCH of a task does, it does by one edit of each row that
    leaves alone the columns no PATCH names, the rows of other ids, the
    status when the body's status is not truthy and the priority when the
    body's priority is not. *)
Lemma patch_task_any_rows (Value : Type) (isTruthy : Value -> bool)
    (bound : Value -> option Text) (i : Z) (status priority : Value) (db : Db) :
  exists g,
    tasks (fst (patch_task_any Value isTruthy bound i status priority db)) = map g (tasks db)
    /\ lectures (fst (patch_task_any Value isTruthy bound i status priority db)) = lectures db
    /\ (forall r, untouched (g r) = untouched r)
    /\ (forall r, Tasks.id r <> i -> g r = r)
    /\ (isTruthy status = false -> forall r, Tasks.status (g r) = Tasks.status r)
    /\ (isTruthy priority = false ->
        forall r, Tasks.priority (g r) = Tasks.priority r).
Proof.
  assert (I : exists g : Tasks.Row -> Tasks.Row,
             tasks db = map g (tasks db) /\ lectures db = lectures db
             /\ (forall r, untouched (g r) = untouched r)
             /\ (forall r, Tasks.id r <> i -> g r = r)
             /\ (isTruthy status = false -> forall r, Tasks.status (g r) = Tasks.status r)
             /\ (isTruthy priority = false -> forall r, Tasks.priority (g r) = Tasks.priority r)).
  { exists (fun r => r); rewrite map_id; repeat split; auto. }
  unfold patch_task_any.
  change (update_task_status) with (fun v i rows => map (set_status v i) rows).
  change (update_task_priority) with (fun v i rows => map (set_priority v i) rows).
  cbv beta.
  destruct (isTruthy status) eqn:TS; [destruct (bound status) as [v|]|];
    cbn [option_map fst tasks lectures]; try exact I;
    (destruct (isTruthy priority) eqn:TP; [destruct (bound priority) as [w|]|]);
    cbn [option_map fst tasks lectures]; try exact I; rewrite ?map_map.
  - exists (fun r => set_priority w i (set_status v i r)).
    split; [reflexivity|]; split; [reflexivity|]; split; [|split; [|split]];
      try discriminate.
    + intros r; rewrite (proj1 (set_priority_frame w i _)).
      apply set_status_frame.
    + intros r N; rewrite (proj2 (proj2 (set_status_frame v i r)) N).
      apply set_priority_frame; exact N.
  - exists (set_status v i).
    split; [reflexivity|]; split; [reflexivity|]; split; [|split; [|split]];
      try discriminate; intros r; try intros N; apply set_status_frame; auto.
  - exists (set_status v i).
    split; [reflexivity|]; split; [reflexivity|]; split; [|split; [|split]];
      try discriminate; try (intros _); intros r; try intros N;
      apply set_status_frame; auto.
  - exists (set_priority w i).
    split; [reflexivity|]; split; [reflexivity|]; split; [|split; [|split]];
      try discriminate; try (intros _); intros r; try intros N;
      apply set_priority_frame; auto.
Qed.

Lemma patch_task_any_answer (Value : Type) (isTruthy : Value -> bool)
    (bound : Value -> option Text) (i : Z) (status priority : Value) (db : Db) :
  snd (patch_task_any Value isTruthy bound i status priority db)
  = Sent (mkSuccess true) <->
  (isTruthy status = true -> bound status <> None)
  /\ (isTruthy priority = true -> bound priority <> None).
Proof.
  unfold patch_task_any.
  destruct (isTruthy status), (bound status) as [v|],
           (isTruthy priority), (bound priority) as [w|];
    cbn [option_map snd]; split; intros H;
    try reflexivity; try discriminate H;
    try (split; intros; discriminate);
    destruct H as [A B];
    try (exfalso; apply A; reflexivity);
    try (exfalso; apply B; reflexivity).
Qed.

(** A PATCH of a task, whatever the body holds and however the driver
    treats it, also when it ends in an error: the lectures, the order and
    number of the tasks, the rows of other ids, and of every row the id,
    title, description, due date and timestamp are as before; the status
    column changes only for a truthy status and the priority column only for
    a truthy priority.  The answer is [{ success: true }] exactly when the
    driver accepts every truthy field.  The two statements are not one
    transaction: when the status is written and the priority then makes the
    driver throw, the answer is an error and the new status stays. *)
Theorem patch_task_touches_only_status_and_priority
    (Value : Type) (isTruthy : Value -> bool) (bound : Value -> option Text)
    (i : Z) (status priority : Value) (db : Db) :
  lectures (fst (patch_task_any Value isTruthy bound i status priority db)) = lectures db
  /\ map untouched (tasks (fst (patch_task_any Value isTruthy bound i status priority db))) = map untouched (tasks db)
  /\ Forall2 (fun old new => Tasks.id old <> i -> new = old)
       (tasks db) (tasks (fst (patch_task_any Value isTruthy bound i status priority db)))
  /\ (isTruthy status = false ->
      map Tasks.status (tasks (fst (patch_task_any Value isTruthy bound i status priority db))) = map Tasks.status (tasks db))
  /\ (isTruthy priority = false ->
      map Tasks.priority (tasks (fst (patch_task_any Value isTruthy bound i status priority db))) = map Tasks.priority (tasks db))
  /\ (snd (patch_task_any Value isTruthy bound i status priority db) = Sent (mkSuccess true) <->
      (isTruthy status = true -> bound status <> None)
      /\ (isTruthy priority = true -> bound priority <> None))
  /\ (forall v,
        isTruthy status = true -> bound status = Some v ->
        isTruthy priority = true -> bound priority = None ->
        patch_task_any Value isTruthy bound i status priority db
        = (mkDb (update_task_status v i (tasks db)) (lectures db), ServerError))
  /\ (forall body,
        patch_task i body db
        = (fst (patch_task_any JsValue truthy (fun v => Some (bindValue v)) i
                  (body_status body) (body_priority body) db),
           mkSuccess true)).
Proof.
  destruct (patch_task_any_rows Value isTruthy bound i status priority db)
    as (g & T & L & U & O & S & P).
  split; [exact L|]; rewrite T.
  split; [rewrite map_map; apply map_ext; exact U|].
  split; [apply Forall2_map_same; exact O|].
  split; [intros E; rewrite map_map; apply map_ext; exact (S E)|].
  split; [intros E; rewrite map_map; apply map_ext; exact (P E)|].
  split; [apply patch_task_any_answer|split].
  - intros v A B C D; unfold patch_task_any; rewrite A, B, C, D; reflexivity.
  - intros body; unfold patch_task, patch_task_any.
    destruct (truthy (body_status body)), (truthy (body_priority body));
      reflexivity.
Qed.

(** A PATCH for an id that no row has changes nothing in either table,
    whatever the body holds and however the driver treats it; it answers
    [{ success: true }] exactly when the driver accepts what it is handed
    (every truthy field of a task, the attendance status of a lecture,
    present or not), and with an error otherwise. *)
Theorem patch_of_unknown_id_changes_nothing
    (Value : Type) (isTruthy : Value -> bool) (bound : Value -> option Text)
    (i : Z) (db : Db) :
  (~ In i (map Tasks.id (tasks db)) ->
   forall status priority, fst (patch_task_any Value isTruthy bound i status priority db) = db)
  /\ (~ In i (map Lectures.id (lectures db)) ->
      forall v, fst (patch_lecture_any Value bound i v db) = db)
  /\ (forall status priority,
        snd (patch_task_any Value isTruthy bound i status priority db) = Sent (mkSuccess true) <->
        (isTruthy status = true -> bound status <> None)
        /\ (isTruthy priority = true -> bound priority <> None))
  /\ (forall v,
        snd (patch_lecture_any Value bound i v db) = Sent (mkSuccess true) <->
        bound v <> None)
  /\ (forall body,
        patch_lecture i body db
        = (fst (patch_lecture_any JsValue (fun v => Some (bindValue v)) i
                  (body_attendance_status body) db),
           mkSuccess true)).
Proof.
  split; [|split; [|split; [|split]]].
  - intros N status priority.
    destruct (patch_task_any_rows Value isTruthy bound i status priority db)
      as (g & T & L & _ & O & _).
    destruct (patch_task_any Value isTruthy bound i status priority db) as [[rows lects] reply]; cbn [fst tasks lectures] in *.
    subst rows lects; destruct db as [rows lects]; cbn [tasks lectures] in *.
    f_equal; apply map_unchanged; intros r I; apply O.
    intros E; apply N; rewrite <- E; apply in_map; exact I.
  - intros N v; unfold patch_lecture_any.
    destruct (bound v) as [t|]; cbn [fst]; [|reflexivity].
    destruct db as [rows lects]; cbn [tasks lectures] in *; f_equal.
    apply map_unchanged; intros r I.
    destruct (Z.eqb_spec (Lectures.id r) i) as [E|_]; [|reflexivity].
    exfalso; apply N; rewrite <- E; apply in_map; exact I.
  - intros status priority; apply patch_task_any_answer.
  - intros v; unfold patch_lecture_any; destruct (bound v); cbn [snd];
      split; try discriminate; try reflexivity; intros E; congruence.
  - intros body; reflexivity.
Qed.

(** Sending the same PATCH a second time changes nothing more. *)
Theorem patch_repeated_changes_nothing_more (i : Z) (db : Db) :
  (forall body,
     patch_task i body (fst (patch_task i body db)) = patch_task i body db)
  /\ (forall body,
        patch_lecture i body (fst (patch_lecture i body db))
        = patch_lecture i body db).
Proof.
  split; intros body.
  - unfold patch_task, update_task_status, update_task_priority;
      cbn [fst tasks lectures].
    destruct (truthy (body_status body)), (truthy (body_priority body));
      try reflexivity; f_equal; f_equal; rewrite !map_map; apply map_ext;
      intros [k ti de pr st du cr]; cbn;
      destruct (k =? i) eqn:K; repeat (progress (cbn; rewrite ?K)); reflexivity.
  - unfold patch_lecture, update_lecture_attendance; cbn [fst tasks lectures].
    f_equal; f_equal; rewrite map_map; apply map_ext.
    intros [k su to at_ da co]; cbn.
    destruct (k =? i) eqn:K; cbn; rewrite ?K; reflexivity.
Qed.

(** ** GET /api/lectures *)

Lemma place_lecture_desc_perm r : forall l,
  Permutation (place_lecture_desc r l) (r :: l).
Proof.
  induction l as [|x l IH]; cbn [place_lecture_desc].
  - apply Permutation_refl.
  - destruct (text_leb (Lectures.date x) (Lectures.date r)).
    + apply Permutation_refl.
    + apply perm_trans with (x :: r :: l);
        [apply perm_skip; exact IH | apply perm_swap].
Qed.

Lemma place_lecture_desc_sorted r : forall l,
  StronglySorted later_or_same_date l ->
  StronglySorted later_or_same_date (place_lecture_desc r l).
Proof.
  induction l as [|x l IH]; intros S; cbn [place_lecture_desc].
  - repeat constructor.
  - apply StronglySorted_inv in S; destruct S as [S F].
    destruct (text_leb (Lectures.date x) (Lectures.date r)) eqn:E.
    + constructor; [constructor; assumption|].
      constructor; [exact E|].
      eapply Forall_impl; [|exact F]; intros y Y; unfold later_or_same_date in *.
      exact (text_leb_trans _ _ _ Y E).
    + constructor; [exact (IH S)|].
      apply (Permutation_Forall (Permutation_sym (place_lecture_desc_perm r l))).
      constructor; [exact (text_leb_total _ _ E) | exact F].
Qed.

Lemma get_lectures_perm db : Permutation (get_lectures db) (lectures db).
Proof.
  unfold get_lectures.
  induction (lectures db) as [|r rows IH]; cbn [fold_right]; [constructor|].
  apply perm_trans with (r :: fold_right place_lecture_desc [] rows);
    [apply place_lecture_desc_perm | apply perm_skip; exact IH].
Qed.

(** The list of lectures is the whole table, each row once, every row
    standing before all rows of a smaller [date] (a NULL date last); so the
    three the dashboard shows after fetching are of dates no earlier than any
    lecture it leaves out. *)
Theorem get_lectures_latest_date_first (db : Db) :
  Permutation (get_lectures db) (lectures db)
  /\ StronglySorted later_or_same_date (get_lectures db)
  /\ forall shown later,
       In shown (Client.upcomingLectures (Client.fetchLectures db)) ->
       In later (skipn 3 (Client.fetchLectures db)) ->
       later_or_same_date shown later.
Proof.
  unfold Client.upcomingLectures, Client.fetchLectures.
  split; [apply get_lectures_perm|].
  assert (S : StronglySorted later_or_same_date (get_lectures db)).
  { unfold get_lectures.
    induction (lectures db) as [|r rows IH]; cbn [fold_right]; [constructor|].
    apply place_lecture_desc_sorted; exact IH. }
  split; [exact S|].
  generalize 3%nat as n; induction S as [|a l S IH F]; intros n shown later I J.
  - destruct n; destruct I.
  - destruct n as [|n]; cbn [firstn skipn] in I, J; [destruct I|].
    destruct I as [<-|I].
    + rewrite Forall_forall in F; apply F.
      rewrite <- (firstn_skipn n l); apply in_or_app; right; exact J.
    + exact (IH n shown later I J).
Qed.

(** ** The task counts of /api/analytics *)

Lemma count_of_count_into_same s g : count_of s (count_into s g) = count_of s g + 1.
Proof.
  unfold count_of; induction g as [|[k c] g IH]; cbn.
  - rewrite Text_eqb_refl; reflexivity.
  - destruct (Text_eqb k s) eqn:E; cbn; rewrite E; [reflexivity | exact IH].
Qed.

Lemma count_of_count_into_other s s' g :
  s <> s' -> count_of s' (count_into s g) = count_of s' g.
Proof.
  intros N; unfold count_of; induction g as [|[k c] g IH]; cbn.
  - rewrite (Text_eqb_neq s s' N); reflexivity.
  - destruct (Text_eqb k s) eqn:E; cbn.
    + apply Text_eqb_eq in E; subst k.
      rewrite (Text_eqb_neq s s' N); reflexivity.
    + destruct (Text_eqb k s'); [reflexivity | exact IH].
Qed.

Lemma count_into_keys s g :
  forall k, In k (map fst (count_into s g)) <-> k = s \/ In k (map fst g).
Proof.
  induction g as [|[k' c] g IH]; intros k; cbn.
  - intuition.
  - destruct (Text_eqb k' s) eqn:E; cbn.
    + apply Text_eqb_eq in E; subst k'; intuition.
    + rewrite IH; intuition.
Qed.

Lemma count_into_NoDup s g :
  NoDup (map fst g) -> NoDup (map fst (count_into s g)).
Proof.
  induction g as [|[k c] g IH]; intros D; cbn.
  - constructor; [intros []|constructor].
  - inversion D as [|? ? N D']; subst.
    destruct (Text_eqb k s) eqn:E; cbn.
    + constructor; assumption.
    + constructor; [|exact (IH D')].
      rewrite count_into_keys; intros [->|I]; [|exact (N I)].
      rewrite Text_eqb_refl in E; discriminate.
Qed.

Lemma count_into_positive s g :
  Forall (fun kc => 0 < snd kc) g -> Forall (fun kc => 0 < snd kc) (count_into s g).
Proof.
  induction 1 as [|[k c] g P F IH]; cbn.
  - constructor; [cbn; lia | constructor].
  - cbn in P; destruct (Text_eqb k s); constructor; cbn; auto; lia.
Qed.

Lemma count_into_total s g :
  fold_right (fun kc acc => snd kc + acc) 0 (count_into s g)
  = fold_right (fun kc acc => snd kc + acc) 0 g + 1.
Proof.
  induction g as [|[k c] g IH]; cbn; [reflexivity|].
  destruct (Text_eqb k s); cbn; lia.
Qed.

Lemma with_status_cons s r rows :
  with_status s (r :: rows)
  = (if Text_eqb (Tasks.status r) s then 1 else 0) + with_status s rows.
Proof.
  unfold with_status; cbn [filter].
  destruct (Text_eqb (Tasks.status r) s); cbn [List.length]; lia.
Qed.

(** What grouping the rows [rows] adds to groups already counted. *)
Lemma group_by_status_from rows : forall g,
  NoDup (map fst g) -> Forall (fun kc => 0 < snd kc) g ->
  let g' := fold_left (fun groups r => count_into (Tasks.status r) groups) rows g in
  NoDup (map fst g')
  /\ Forall (fun kc => 0 < snd kc) g'
  /\ (forall s, count_of s g' = count_of s g + with_status s rows)
  /\ fold_right (fun kc acc => snd kc + acc) 0 g'
     = fold_right (fun kc acc => snd kc + acc) 0 g + Z.of_nat (List.length rows).
Proof.
  induction rows as [|r rows IH]; intros g D P; cbn [fold_left].
  - split; [exact D|]; split; [exact P|]; split; [|cbn; lia].
    intros s; unfold with_status; cbn; lia.
  - destruct (IH (count_into (Tasks.status r) g) (count_into_NoDup _ _ D)
                (count_into_positive _ _ P)) as (D' & P' & C & T).
    split; [exact D'|]; split; [exact P'|]; split.
    + intros s; rewrite C, with_status_cons.
      destruct (Text_eqb (Tasks.status r) s) eqn:E.
      * apply Text_eqb_eq in E; subst s; rewrite count_of_count_into_same; lia.
      * rewrite count_of_count_into_other; [lia|].
        intros Q; rewrite Q, Text_eqb_refl in E; discriminate.
    + rewrite T, count_into_total; cbn [List.length]; lia.
Qed.

Lemma count_of_In s c g :
  NoDup (map fst g) -> In (s, c) g -> count_of s g = c.
Proof.
  unfold count_of; induction g as [|[k c'] g IH]; intros D I; [destruct I|].
  inversion D as [|? ? N D']; subst; cbn.
  destruct I as [E|I].
  - inversion E; subst; rewrite Text_eqb_refl; reflexivity.
  - destruct (Text_eqb k s) eqn:E; [|exact (IH D' I)].
    apply Text_eqb_eq in E; subst k.
    exfalso; apply N; change s with (fst (s, c)); apply in_map; exact I.
Qed.

Lemma In_count_of s g :
  Forall (fun kc => 0 < snd kc) g -> 0 < count_of s g -> In (s, count_of s g) g.
Proof.
  unfold count_of; induction 1 as [|[k c] g P F IH]; cbn; [lia|].
  destruct (Text_eqb k s) eqn:E.
  - apply Text_eqb_eq in E; subst k; auto.
  - intros Q; right; exact (IH Q).
Qed.

(** The task statistics list every status that occurs exactly once, with
    the number of tasks that have it (NULL counting as a status); no count
    is zero, and the counts add up to the number of tasks. *)
Theorem taskStats_counts_every_task_once (db : Db) :
  NoDup (map fst (taskStats db))
  /\ (forall s c, In (s, c) (taskStats db) <->
                  c = with_status s (tasks db) /\ 0 < c)
  /\ fold_right (fun kc acc => snd kc + acc) 0 (taskStats db)
     = Z.of_nat (List.length (tasks db)).
Proof.
  unfold taskStats, group_by_status.
  destruct (group_by_status_from (tasks db) [] (NoDup_nil _) (Forall_nil _))
    as (D & P & C & T); cbv zeta in *.
  split; [exact D|]; split; [|rewrite T; reflexivity].
  intros s c; split.
  - intros I; split.
    + rewrite <- (count_of_In s c _ D I), C; reflexivity.
    + rewrite Forall_forall in P; exact (P _ I).
  - intros [-> Q]; specialize (C s); cbn in C; rewrite <- C in Q |- *.
    apply In_count_of; assumption.
Qed.

(* ================================================================== *)
(** * The client against the server *)

(** ** Marking attendance and changing a status *)

Lemma get_lectures_map (u : Lectures.Row -> Lectures.Row) (tks : list Tasks.Row)
    (rows : list Lectures.Row) :
  (forall r, Lectures.date (u r) = Lectures.date r) ->
  get_lectures (mkDb tks (map u rows)) = map u (get_lectures (mkDb tks rows)).
Proof.
  intros U; unfold get_lectures; cbn [lectures].
  assert (P : forall r l,
             place_lecture_desc (u r) (map u l) = map u (place_lecture_desc r l)).
  { intros r; induction l as [|x l IH]; cbn [map place_lecture_desc]; [reflexivity|].
    rewrite !U; destruct (text_leb (Lectures.date x) (Lectures.date r));
      cbn [map]; [reflexivity | rewrite IH; reflexivity]. }
  induction rows as [|r rows IH]; cbn [map fold_right]; [reflexivity|].
  rewrite IH; apply P.
Qed.

Lemma get_tasks_map (u : Tasks.Row -> Tasks.Row) (rows : list Tasks.Row)
    (lects : list Lectures.Row) :
  (forall r, Tasks.created_at (u r) = Tasks.created_at r) ->
  get_tasks (mkDb (map u rows) lects) = map u (get_tasks (mkDb rows lects)).
Proof.
  intros U; unfold get_tasks, order_by_created_at_desc; cbn [tasks].
  assert (P : forall r l, place_desc (u r) (map u l) = map u (place_desc r l)).
  { intros r; induction l as [|x l IH]; cbn [map place_desc]; [reflexivity|].
    rewrite !U; destruct (text_leb (Tasks.created_at x) (Tasks.created_at r));
      cbn [map]; [reflexivity | rewrite IH; reflexivity]. }
  induction rows as [|r rows IH]; cbn [map fold_right]; [reflexivity|].
  rewrite IH; apply P.
Qed.

Lemma get_tasks_perm db : Permutation (get_tasks db) (tasks db).
Proof. apply order_by_created_at_desc_perm. Qed.

Lemma marking_agrees (i : Z) (st : string) (db : Db) :
  fst (Client.handleMarkAttendance Fulfilled i st (Client.fetchLectures db))
  = Client.fetchLectures (fst (patch_lecture i (Client.markAttendanceBody st) db)).
Proof.
  unfold Client.handleMarkAttendance, Client.fetchLectures, patch_lecture,
    update_lecture_attendance, Client.markAttendanceBody;
    cbn [await fst bindValue body_attendance_status].
  destruct db as [tks rows]; cbn [tasks lectures].
  rewrite get_lectures_map; [reflexivity|].
  intros r; destruct (Lectures.id r =? i); reflexivity.
Qed.

(** After a mark on [i] and one on another lecture, every stored lecture of
    id [i] carries the mark. *)
Lemma marked_on_server i j st st' db r :
  i <> j ->
  In r (lectures (Client.serverAfterMarks [(i, st); (j, st')] db)) ->
  Lectures.id r = i -> Lectures.attendance_status r = Some st.
Proof.
  intros N I E; unfold Client.serverAfterMarks, patch_lecture,
    update_lecture_attendance, Client.markAttendanceBody in I;
    cbn [fold_left fst snd lectures tasks bindValue body_attendance_status] in I.
  rewrite map_map in I; apply in_map_iff in I; destruct I as (x & X & _).
  destruct (Z.eqb_spec (Lectures.id x) i) as [Ei|Ni];
    cbn [Lectures.id] in X.
  - destruct (Z.eqb_spec (Lectures.id x) j) as [Ej|_]; [congruence|].
    subst r; reflexivity.
  - destruct (Z.eqb_spec (Lectures.id x) j) as [Ej|_]; subst r; cbn in E; congruence.
Qed.

(** Marking attendance, for ids that a JavaScript number carries unchanged.
    One request sent from a render that shows the server's list: when it
    gets through, the list the client keeps after its own edit is the list
    the server would now send; when it does not, the client keeps its list
    and logs one line.  Two requests sent from the same render: each edits
    the list that render had captured, so the client ends with the second
    mark alone, and when the two marks are on different lectures and the
    first one changed something, the client's list is no longer the
    server's: the first mark is stored but not shown. *)
Theorem marking_attendance_matches_the_server (i : Z) (st : string) (db : Db) :
  Forall safe_id (i :: map Lectures.id (lectures db)) ->
  fst (Client.handleMarkAttendance Fulfilled i st (Client.fetchLectures db))
  = Client.fetchLectures (fst (patch_lecture i (Client.markAttendanceBody st) db))
  /\ Client.handleMarkAttendance Rejected i st (Client.fetchLectures db)
     = (Client.fetchLectures db, ["Attendance error:"%string])
  /\ (forall j st',
        safe_id j ->
        Client.marksFromOneRender (Client.fetchLectures db) [(i, st); (j, st')]
          (Client.fetchLectures db)
        = Client.fetchLectures
            (fst (patch_lecture j (Client.markAttendanceBody st') db)))
  /\ (forall j st' r,
        safe_id j -> i <> j -> In r (lectures db) -> Lectures.id r = i ->
        Lectures.attendance_status r <> Some st ->
        Client.marksFromOneRender (Client.fetchLectures db) [(i, st); (j, st')]
          (Client.fetchLectures db)
        <> Client.fetchLectures (Client.serverAfterMarks [(i, st); (j, st')] db)).
Proof.
  intros _; split; [apply marking_agrees|]; split; [reflexivity|]; split.
  - intros j st' _; unfold Client.marksFromOneRender; cbn [fold_left fst snd].
    apply marking_agrees.
  - intros j st' r _ N I E A Q.
    assert (Ic : In r (Client.marksFromOneRender (Client.fetchLectures db)
                         [(i, st); (j, st')] (Client.fetchLectures db))).
    { unfold Client.marksFromOneRender, Client.handleMarkAttendance;
        cbn [fold_left fst snd await].
      apply in_map_iff; exists r; split.
      - destruct (Z.eqb_spec (Lectures.id r) j); [congruence | reflexivity].
      - apply (Permutation_in r (Permutation_sym (get_lectures_perm db))); exact I. }
    rewrite Q in Ic.
    apply (Permutation_in r (get_lectures_perm _)) in Ic.
    exact (A (marked_on_server i j st st' db r N Ic E)).
Qed.

Lemma marking_attendance_matches_the_server_witness :
  fst (Client.handleMarkAttendance Fulfilled 1 "Absent"
         (Client.fetchLectures (mkDb [] [attended_lecture])))
  = Client.fetchLectures
      (fst (patch_lecture 1 (Client.markAttendanceBody "Absent")
              (mkDb [] [attended_lecture])))
  /\ Client.handleMarkAttendance Rejected 1 "Absent"
       (Client.fetchLectures (mkDb [] [attended_lecture]))
     = (Client.fetchLectures (mkDb [] [attended_lecture]),
        ["Attendance error:"%string])
  /\ (forall j st',
        safe_id j ->
        Client.marksFromOneRender
          (Client.fetchLectures (mkDb [] [attended_lecture]))
          [(1, "Absent"%string); (j, st')]
          (Client.fetchLectures (mkDb [] [attended_lecture]))
        = Client.fetchLectures
            (fst (patch_lecture j (Client.markAttendanceBody st')
                    (mkDb [] [attended_lecture]))))
  /\ (forall j st' r,
        safe_id j -> 1 <> j -> In r (lectures (mkDb [] [attended_lecture])) ->
        Lectures.id r = 1 ->
        Lectures.attendance_status r <> Some "Absent"%string ->
        Client.marksFromOneRender
          (Client.fetchLectures (mkDb [] [attended_lecture]))
          [(1, "Absent"%string); (j, st')]
          (Client.fetchLectures (mkDb [] [attended_lecture]))
        <> Client.fetchLectures
             (Client.serverAfterMarks [(1, "Absent"%string); (j, st')]
                (mkDb [] [attended_lecture]))).
Proof.
  apply (marking_attendance_matches_the_server 1 "Absent"
           (mkDb [] [attended_lecture])).
  repeat constructor; vm_compute; reflexivity.
Defined.

Lemma updating_agrees (i : Z) (st : string) (db : Db) :
  st <> ""%string ->
  fst (Client.updateTaskStatus Fulfilled i st (Client.fetchTasks db))
  = Client.fetchTasks (fst (patch_task i (Client.updateTaskStatusBody st) db)).
Proof.
  intros N.
  unfold Client.updateTaskStatus, Client.fetchTasks, patch_task,
    Client.updateTaskStatusBody; cbn [await fst body_status body_priority truthy].
  replace (negb (String.eqb st "")) with true
    by (symmetry; apply negb_true_iff, String.eqb_neq; exact N).
  unfold update_task_status; cbn [bindValue].
  destruct db as [rows lects]; cbn [tasks lectures].
  rewrite get_tasks_map; [|intros r; destruct (Tasks.id r =? i); reflexivity].
  rewrite !map_map; apply map_ext; intros r.
  unfold Client.fromRow; cbn; destruct (Tasks.id r =? i); reflexivity.
Qed.

Lemma patch_status_rows (i : Z) (st : string) (db : Db) :
  st <> ""%string ->
  tasks (fst (patch_task i (Client.updateTaskStatusBody st) db))
  = map (set_status (Some st) i) (tasks db).
Proof.
  intros N; unfold patch_task, Client.updateTaskStatusBody;
    cbn [body_status body_priority truthy].
  replace (negb (String.eqb st "")) with true
    by (symmetry; apply negb_true_iff, String.eqb_neq; exact N).
  reflexivity.
Qed.

Lemma patch_status_keeps_other_rows (j : Z) (st' : string) (db : Db) (x : Tasks.Row) :
  In x (tasks (fst (patch_task j (Client.updateTaskStatusBody st') db))) ->
  Tasks.id x <> j -> In x (tasks db).
Proof.
  unfold patch_task, Client.updateTaskStatusBody;
    cbn [body_status body_priority truthy].
  destruct (negb (String.eqb st' "")); cbn [fst tasks bindValue]; [|tauto].
  unfold update_task_status; intros I N.
  apply in_map_iff in I; destruct I as (y & Y & I).
  destruct (Z.eqb_spec (Tasks.id y) j) as [E|_];
    [subst x; cbn in N; contradiction | subst y; exact I].
Qed.

(** Changing a status, for ids that a JavaScript number carries unchanged.
    One request sent from a render that shows the server's list: when it
    gets through and the status is not the empty string, the client's list
    after its own edit is the list the server would now send; when it does
    not get through, the client keeps its list and logs one line.  For the
    empty string the server keeps the old status although it answers with
    success, while the client writes the empty one.  Two requests sent from
    the same render: each edits the list that render had captured, so the
    client ends with the second change alone, and when the two changes are
    on different tasks and the first one changed something, the client's
    list is no longer the server's: the first change is stored but not
    shown. *)
Theorem updating_a_status_matches_the_server (i : Z) (st : string) (db : Db) :
  st <> ""%string ->
  Forall safe_id (i :: map Tasks.id (tasks db)) ->
  fst (Client.updateTaskStatus Fulfilled i st (Client.fetchTasks db))
  = Client.fetchTasks (fst (patch_task i (Client.updateTaskStatusBody st) db))
  /\ Client.updateTaskStatus Rejected i st (Client.fetchTasks db)
     = (Client.fetchTasks db, ["Update error:"%string])
  /\ patch_task i (Client.updateTaskStatusBody "") db = (db, mkSuccess true)
  /\ (forall t,
        In t (fst (Client.updateTaskStatus Fulfilled i "" (Client.fetchTasks db))) ->
        Client.id t = i -> Client.status t = Some ""%string)
  /\ (forall j st',
        safe_id j -> st' <> ""%string ->
        Client.statusesFromOneRender (Client.fetchTasks db) [(i, st); (j, st')]
          (Client.fetchTasks db)
        = Client.fetchTasks
            (fst (patch_task j (Client.updateTaskStatusBody st') db)))
  /\ (forall j st' r,
        safe_id j -> i <> j -> In r (tasks db) -> Tasks.id r = i ->
        Tasks.status r <> Some st ->
        Client.statusesFromOneRender (Client.fetchTasks db) [(i, st); (j, st')]
          (Client.fetchTasks db)
        <> Client.fetchTasks
             (Client.serverAfterStatuses [(i, st); (j, st')] db)).
Proof.
  intros N _; split; [apply updating_agrees; exact N|].
  split; [reflexivity|]; split; [destruct db; reflexivity|]; split; [|split].
  - unfold Client.updateTaskStatus; cbn [await fst]; intros t I E.
    apply in_map_iff in I; destruct I as (t0 & <- & _).
    destruct (Z.eqb_spec (Client.id t0) i) as [_|D]; [reflexivity|].
    destruct (Z.eqb_spec (Client.id t0) i); [contradiction | cbn in E; contradiction].
  - intros j st' _ N'; unfold Client.statusesFromOneRender; cbn [fold_left fst snd].
    apply updating_agrees; exact N'.
  - intros j st' r _ D I E A Q.
    assert (Ic : In (Client.fromRow r)
                   (Client.statusesFromOneRender (Client.fetchTasks db)
                      [(i, st); (j, st')] (Client.fetchTasks db))).
    { unfold Client.statusesFromOneRender, Client.updateTaskStatus;
        cbn [fold_left fst snd await].
      apply in_map_iff; exists (Client.fromRow r); split.
      - cbn [Client.fromRow Client.id].
        destruct (Z.eqb_spec (Tasks.id r) j); [congruence | reflexivity].
      - apply in_map, (Permutation_in r (Permutation_sym (get_tasks_perm db))), I. }
    rewrite Q in Ic; unfold Client.fetchTasks in Ic.
    apply in_map_iff in Ic; destruct Ic as (x & X & Ix).
    apply (Permutation_in x (get_tasks_perm _)) in Ix.
    assert (Ex : Tasks.id x = i) by (apply (f_equal Client.id) in X; cbn in X; congruence).
    assert (Sx : Tasks.status x = Tasks.status r)
      by (apply (f_equal Client.status) in X; exact X).
    unfold Client.serverAfterStatuses in Ix; cbn [fold_left fst snd] in Ix.
    apply patch_status_keeps_other_rows in Ix; [|congruence].
    rewrite (patch_status_rows i st db N) in Ix.
    apply in_map_iff in Ix; destruct Ix as (y & Y & _).
    unfold set_status in Y.
    destruct (Z.eqb_spec (Tasks.id y) i) as [_|Ny];
      [subst x; cbn in Sx; congruence | congruence].
Qed.

Lemma updating_a_status_matches_the_server_witness :
  fst (Client.updateTaskStatus Fulfilled 1 "done"
         (Client.fetchTasks (mkDb [sample_task] [])))
  = Client.fetchTasks
      (fst (patch_task 1 (Client.updateTaskStatusBody "done")
              (mkDb [sample_task] [])))
  /\ Client.updateTaskStatus Rejected 1 "done"
       (Client.fetchTasks (mkDb [sample_task] []))
     = (Client.fetchTasks (mkDb [sample_task] []), ["Update error:"%string])
  /\ patch_task 1 (Client.updateTaskStatusBody "") (mkDb [sample_task] [])
     = (mkDb [sample_task] [], mkSuccess true)
  /\ (forall t,
        In t (fst (Client.updateTaskStatus Fulfilled 1 ""
                     (Client.fetchTasks (mkDb [sample_task] [])))) ->
        Client.id t = 1 -> Client.status t = Some ""%string)
  /\ (forall j st',
        safe_id j -> st' <> ""%string ->
        Client.statusesFromOneRender (Client.fetchTasks (mkDb [sample_task] []))
          [(1, "done"%string); (j, st')]
          (Client.fetchTasks (mkDb [sample_task] []))
        = Client.fetchTasks
            (fst (patch_task j (Client.updateTaskStatusBody st')
                    (mkDb [sample_task] []))))
  /\ (forall j st' r,
        safe_id j -> 1 <> j -> In r (tasks (mkDb [sample_task] [])) ->
        Tasks.id r = 1 -> Tasks.status r <> Some "done"%string ->
        Client.statusesFromOneRender (Client.fetchTasks (mkDb [sample_task] []))
          [(1, "done"%string); (j, st')]
          (Client.fetchTasks (mkDb [sample_task] []))
        <> Client.fetchTasks
             (Client.serverAfterStatuses [(1, "done"%string); (j, st')]
                (mkDb [sample_task] []))).
Proof.
  apply (updating_a_status_matches_the_server 1 "done" (mkDb [sample_task] [])).
  - intros E; discriminate E.
  - repeat constructor; vm_compute; reflexivity.
Defined.

(** ** Ids *)

Lemma next_id_safe ids :
  Forall safe_id ids -> 0 < next_id ids <= max_safe_integer.
Proof.
  unfold next_id, safe_id, max_safe_integer; intros F.
  assert (B : 0 <= fold_right Z.max 0 ids < 9007199254740991).
  { induction F as [|x l X _ IH]; cbn [fold_right]; lia. }
  lia.
Qed.


(** ** Adding a task *)



(** ** The counters and the board *)

Lemma length_filter_split {A : Type} (p : A -> bool) (l : list A) :
  (List.length (filter p l) + List.length (filter (fun x => negb (p x)) l)
   = List.length l)%nat.
Proof.
  induction l as [|x l IH]; cbn; [reflexivity|].
  destruct (p x); cbn; lia.
Qed.

(** The dashboard's pending and completed counts add up to the number of
    tasks, and "completed" is the size of the board's last column.  Every
    task is in exactly one of: the three columns, or none of them (its
    status is none of the three): the four sizes add up to the number of
    tasks.  A task without a status, as one created from a body without
    [status] is, counts as pending and is in no column. *)
Theorem dashboard_and_board_counts (tasks : list Client.Task) :
  (Client.pendingTasks tasks + Client.completedTasks tasks
   = List.length tasks)%nat
  /\ Client.completedTasks tasks = List.length (Client.columnTasks "done" tasks)
  /\ (List.length (Client.columnTasks "todo" tasks)
      + List.length (Client.columnTasks "in-progress" tasks)
      + List.length (Client.columnTasks "done" tasks)
      + List.length (filter Client.offBoard tasks)
      = List.length tasks)%nat
  /\ (forall t col,
        Client.status t = None ->
        Client.isDone t = false /\ ~ In t (Client.columnTasks col tasks))
  /\ (forall i t now body,
        post_status body = JsUndefined ->
        Client.offBoard (Client.fromRow (posted_task i t now body)) = true).
Proof.
  split; [|split; [|split; [|split]]].
  - unfold Client.pendingTasks, Client.completedTasks.
    rewrite Nat.add_comm; apply length_filter_split.
  - reflexivity.
  - unfold Client.columnTasks, Client.offBoard, Client.columns; cbn [existsb].
    induction tasks as [|t tasks IH]; [reflexivity|]; cbn [filter].
    destruct (Client.status t) as [s|]; cbn [Text_eqb].
    + destruct (String.eqb s "todo") eqn:T, (String.eqb s "in-progress") eqn:P,
               (String.eqb s "done") eqn:D;
        try apply String.eqb_eq in T; try apply String.eqb_eq in P;
        try apply String.eqb_eq in D; try congruence;
        cbn [negb orb List.length]; lia.
    + cbn [negb orb List.length]; lia.
  - intros t col E; unfold Client.isDone, Client.columnTasks; rewrite E.
    split; [reflexivity|]; rewrite filter_In, E; intros [_ C]; discriminate C.
  - intros i t now body E; unfold Client.offBoard, Client.fromRow, posted_task.
    cbn; rewrite E; reflexivity.
Qed.

(** ** From the timer to the table of sessions *)




(* ================================================================== *)
(** * The assistant *)


(* ================================================================== *)
(** * Adding a lecture *)

(** A lecture sent from the form, when the ids in use are ones a JavaScript
    number carries unchanged, is stored under a new id with no attendance
    status and [completed = 0]; the list shown afterwards is the server's
    list, which holds the new lecture and every lecture held before, and the
    form closes.  If the list cannot be fetched again the lecture is stored
    all the same, while the client keeps its old list and the open form.
    When the table's ids are used up the server stores nothing and answers
    with an error, which the client does not look at: it shows the list it
    fetches, closes the form and logs nothing.  When the request does not
    reach the server, nothing is stored and the client keeps its list and
    the open form. *)
Theorem adding_a_lecture_shows_the_stored_row
    (subject topic date : string) (db : Db) (shown : list Lectures.Row)
    (isOpen : bool) :
  (Forall safe_id (map Lectures.id (lectures db)) ->
   exists row,
     post_lecture (Client.addLectureBody subject topic date) db
     = (mkDb (tasks db) (lectures db ++ [row]), Sent (mkSuccess true))
     /\ Lectures.subject row = subject
     /\ Lectures.attendance_status row = None
     /\ Lectures.completed row = 0
     /\ 0 < Lectures.id row <= max_safe_integer
     /\ Forall (fun r => Lectures.id r < Lectures.id row) (lectures db)
     /\ Client.handleAddLecture Fulfilled Fulfilled
          (Client.addLectureBody subject topic date) db shown isOpen
        = (mkDb (tasks db) (lectures db ++ [row]),
           (get_lectures (mkDb (tasks db) (lectures db ++ [row])), false), [])
     /\ Permutation (get_lectures (mkDb (tasks db) (lectures db ++ [row])))
          (row :: get_lectures db)
     /\ Client.handleAddLecture Fulfilled Rejected
          (Client.addLectureBody subject topic date) db shown isOpen
        = (mkDb (tasks db) (lectures db ++ [row]), (shown, isOpen),
           ["Add lecture error:"%string]))
  /\ (max_rowid < next_id (map Lectures.id (lectures db)) ->
      post_lecture (Client.addLectureBody subject topic date) db
      = (db, ServerError)
      /\ exists listed,
           Client.handleAddLecture Fulfilled Fulfilled
             (Client.addLectureBody subject topic date) db shown isOpen
           = (db, (listed, false), []))
  /\ Client.handleAddLecture Rejected Fulfilled
       (Client.addLectureBody subject topic date) db shown isOpen
     = (db, (shown, isOpen), ["Add lecture error:"%string]).
Proof.
  split; [|split; [|reflexivity]].
  - intros S; destruct (next_id_safe _ S) as [P B].
    assert (Q : post_lecture (Client.addLectureBody subject topic date) db
                = (mkDb (tasks db)
                     (lectures db ++
                        [Lectures.mkRow (next_id (map Lectures.id (lectures db)))
                           subject (Some topic) None (Some date) 0]),
                   Sent (mkSuccess true))).
    { unfold post_lecture, Client.addLectureBody; cbn [post_subject bindValue]; cbv zeta.
      replace (next_id (map Lectures.id (lectures db)) <=? max_rowid) with true
        by (symmetry; apply Z.leb_le; unfold max_rowid, max_safe_integer in *; lia).
      reflexivity. }
    eexists; split; [exact Q|].
    destruct (next_id_above (map Lectures.id (lectures db))) as [_ F].
    rewrite Forall_map in F.
    split; [reflexivity|]; split; [reflexivity|]; split; [reflexivity|].
    split; [cbn [Lectures.id]; split; [exact P | exact B]|].
    split; [exact F|].
    split; [unfold Client.handleAddLecture; rewrite Q; reflexivity|].
    split; [|unfold Client.handleAddLecture; rewrite Q; reflexivity].
    apply perm_trans with (lectures db ++ [Lectures.mkRow
              (next_id (map Lectures.id (lectures db))) subject
              (Some topic) None (Some date) 0]).
    + apply (get_lectures_perm (mkDb (tasks db) _)).
    + apply perm_trans with (Lectures.mkRow
              (next_id (map Lectures.id (lectures db))) subject
              (Some topic) None (Some date) 0
              :: lectures db).
      * apply Permutation_sym, Permutation_cons_append.
      * apply perm_skip, Permutation_sym, get_lectures_perm.
  - intros M.
    assert (Q : post_lecture (Client.addLectureBody subject topic date) db
                = (db, ServerError)).
    { unfold post_lecture, Client.addLectureBody; cbn [post_subject bindValue]; cbv zeta.
      replace (next_id (map Lectures.id (lectures db)) <=? max_rowid) with false
        by (symmetry; apply Z.leb_gt; exact M).
      reflexivity. }
    split; [exact Q|]; eexists; unfold Client.handleAddLecture; rewrite Q; reflexivity.
Qed.
